(** * IMC Prosperity round 1 market maker (round_1_v2.0.1.py)

    A shallow embedding of the trading logic of [round_1_v2.0.1.py]:
    the cross-sectional [Status] of one product, the rolling price
    window kept by [Calculate.update_price], the quote engine
    [Strategy.market_making] and the per-tick loop [Trader.run].

    Number model.  Python [int] is [Z].  Python [float] is idealised by
    the exact rationals [Q]: [math.ceil], [math.floor] and [round] are
    the exact ceiling, floor and round-half-to-even, and comparisons
    between [int] and [float] are exact comparisons.  Where a statement
    needs a division to be exact, the magnitudes for which it is exact in
    double precision are hypotheses of the statement.  Diagnostic
    printing ([report_trade], [_report_order], the [print] calls) has
    no effect on the decision and is left out. *)

From Stdlib Require Import ZArith QArith Qround Lia Lqa.
From stdpp Require Import gmap strings list fin_maps.

Local Open Scope Z_scope.

(** ** Python exceptions as an error monad *)

Inductive PyError : Type :=
| KeyError
| ValueError
| ZeroDivisionError.

Inductive Exc (A : Type) : Type :=
| Ok (a : A)
| Raise (e : PyError).

Arguments Ok {A} a.
Arguments Raise {A} e.

#[global] Instance Exc_ret : MRet Exc := fun A a => Ok a.

#[global] Instance Exc_bind : MBind Exc := fun A B f c =>
  match c with
  | Ok a => f a
  | Raise e => Raise e
  end.

(** [d[k]] on a dict: [KeyError] when the key is absent. *)
Definition getitem {K : Type} `{Countable K} {V : Type}
    (d : gmap K V) (k : K) : Exc V :=
  match d !! k with
  | Some v => Ok v
  | None => Raise KeyError
  end.

(** [d.keys()], [min] and [max] of a sequence: [ValueError] when empty. *)
Definition keys {V : Type} (d : gmap Z V) : list Z := (map_to_list d).*1.

Definition py_min (l : list Z) : Exc Z :=
  match l with
  | [] => Raise ValueError
  | x :: l' => Ok (foldl Z.min x l')
  end.

Definition py_max (l : list Z) : Exc Z :=
  match l with
  | [] => Raise ValueError
  | x :: l' => Ok (foldl Z.max x l')
  end.

(** ** Rounding *)

(** [round(x)]: nearest integer, ties to the even one. *)
Definition py_round (x : Q) : Z :=
  let f := Qfloor x in
  match (x - inject_Z f ?= 1 # 2)%Q with
  | Lt => f
  | Gt => f + 1
  | Eq => if Z.even f then f else f + 1
  end.

(** [round(x, 2)]. *)
Definition py_round2 (x : Q) : Q := (inject_Z (py_round (x * 100)) / 100)%Q.

(** [sum(l)] for a list of floats. *)
Definition py_sum (l : list Q) : Q := foldl Qplus 0%Q l.

(** ** datamodel *)

(** Modelled from the spec: [datamodel.Order], imported by the source and
    built as [Order(product, price, quantity)]: an instrument, an integer
    price and a signed integer quantity (positive buys, negative sells). *)
Record Order : Type := mkOrder {
  symbol : string;
  price : Z;
  quantity : Z
}.

(** Modelled from the spec: [datamodel.OrderDepth], two dicts from integer
    price levels to resting quantities. *)
Record OrderDepth : Type := mkOrderDepth {
  buy_orders : gmap Z Z;
  sell_orders : gmap Z Z
}.

(** Modelled from the spec: [datamodel.TradingState], of which the
    decision reads the integer [timestamp], the order book per product
    and the signed position per product ([own_trades] is only printed). *)
Module TradingState.
Record t : Type := mk {
  timestamp : Z;
  order_depths : gmap string OrderDepth;
  position : gmap string Z
}.

(** The same state with the position mapping replaced. *)
Definition with_position (s : t) (p : gmap string Z) : t :=
  {| timestamp := timestamp s;
     order_depths := order_depths s;
     position := p |}.
End TradingState.

(** One entry of [Trader._data]: [{'trend': ..., 'price': [...]}]. *)
Module Data.
Record entry : Type := mk {
  trend : Q;
  price : list Q
}.
End Data.

(** ** class Status *)

Module Status.

Definition POSITION_LIMITS : gmap string Z :=
  {[ "PEARLS"%string := 20; "BANANAS"%string := 20 ]}.

Record t : Type := mk {
  product : string;
  state : TradingState.t;
  order_depth : OrderDepth;
  timestamp : Z;
  position : Z;
  limit : Z;
  best_ask : Z;
  best_bid : Z;
  spread : Z;
  mid_price : Q;
  eff_spread : Q;
  mid_vwap : Q
}.

Definition report_position (product : string) (state : TradingState.t) : Z :=
  match TradingState.position state !! product with
  | Some position => position
  | None => 0
  end.

Definition spread_mid (best_ask best_bid : Z) : Z * Q :=
  let spread := best_ask - best_bid in
  let mid_price := (inject_Z (best_ask + best_bid) / 2)%Q in
  (spread, mid_price).

(** The two accumulators of one [for price, quantity in ....items()]
    loop: [numerator] and [denominator]. *)
Definition side_sums (orders : gmap Z Z) : Z * Z :=
  map_fold (fun price quantity '(numerator, denominator) =>
              (numerator + price * quantity, denominator + quantity))
           (0, 0) orders.

(** [numerator / denominator] on two ints. *)
Definition truediv (numerator denominator : Z) : Exc Q :=
  if decide (denominator = 0) then Raise ZeroDivisionError
  else Ok (inject_Z numerator / inject_Z denominator)%Q.

Definition vwap (orders : gmap Z Z) : Exc Q :=
  let '(numerator, denominator) := side_sums orders in
  truediv numerator denominator.

Definition spread_vwap (order_depth : OrderDepth) : Exc (Q * Q) :=
  ask_vwap ← vwap (sell_orders order_depth);
  bid_vwap ← vwap (buy_orders order_depth);
  let eff_spread := py_round2 (ask_vwap - bid_vwap) in
  let mid_vwap := py_round2 ((ask_vwap + bid_vwap) / 2) in
  mret (eff_spread, mid_vwap).

(** [Status.__init__]. *)
Definition init (product : string) (state : TradingState.t) : Exc t :=
  order_depth ← getitem (TradingState.order_depths state) product;
  let timestamp := TradingState.timestamp state in
  let position := report_position product state in
  limit ← getitem POSITION_LIMITS product;
  best_ask ← py_min (keys (sell_orders order_depth));
  best_bid ← py_max (keys (buy_orders order_depth));
  let '(spread, mid_price) := spread_mid best_ask best_bid in
  '(eff_spread, mid_vwap) ← spread_vwap order_depth;
  mret (mk product state order_depth timestamp position limit
           best_ask best_bid spread mid_price eff_spread mid_vwap).

End Status.

(** ** class Calculate(Status) *)

Module Calculate.

Definition init : string -> TradingState.t -> Exc Status.t := Status.init.

(** The window after one update: [del data_price[0]] when
    [timestamp > 400] (the [IndexError] of an empty list is swallowed),
    then [data_price.append(mid_price)]. *)
Definition update_window (timestamp : Z) (mid_price : Q)
    (data_price : list Q) : list Q :=
  let data_price :=
    if decide (400 < timestamp) then tail data_price else data_price in
  data_price ++ [mid_price].

Definition update_price (self : Status.t) (data : gmap string Data.entry)
    : Exc (gmap string Data.entry) :=
  entry ← getitem data (Status.product self);
  let data_price :=
    update_window (Status.timestamp self) (Status.mid_price self)
                  (Data.price entry) in
  mret (<[Status.product self := Data.mk (Data.trend entry) data_price]> data).

End Calculate.

(** ** class Strategy(Status) *)

Module Strategy.

Definition init : string -> TradingState.t -> Exc Status.t := Status.init.

Definition mm_price (self : Status.t) (sma : Q) (sma_scale : Q) : Q :=
  let shift :=
    if decide (Status.timestamp self < 400) then 0%Q
    else (- sma_scale * (Status.mid_price self - sma))%Q in
  let resv_price := (Status.mid_vwap self + shift)%Q in
  resv_price.

Definition mm_spread (self : Status.t) (trend : Q) : Q :=
  let atrend := (1 - trend)%Q in
  let order_spread := (Status.eff_spread self * atrend)%Q in
  order_spread.

(** Lines 157-169 of [inventory_skew]: the bid and the ask price. *)
Definition quote_prices (price spread : Q) : Z * Z :=
  let bid_price := Qceiling (price - spread / 2) in
  let bid_price :=
    if Qle_bool price (inject_Z bid_price) then bid_price - 1
    else bid_price in
  let ask_price := Qfloor (price + spread / 2) in
  let ask_price :=
    if Qle_bool (inject_Z ask_price) price then bid_price + 1
    else ask_price in
  (bid_price, ask_price).

(** Line 171: [abs(self.position) >= 0.9 * self.limit]. *)
Definition stop_loss (self : Status.t) : bool :=
  Qle_bool ((9 # 10) * inject_Z (Status.limit self))
           (inject_Z (Z.abs (Status.position self))).

(** Lines 198-202: the size shift from the moving average. *)
Definition quantity_shift (self : Status.t) (sma sma_scale : Q) : Z :=
  if decide (Status.timestamp self < 400) then 0
  else py_round (- sma_scale * (Status.mid_price self - sma)).

(** Lines 190-196 and 204-205: the two sizes of the two-sided quote. *)
Definition quote_sizes (limit position : Z) (skew : Q) (shift : Z) : Z * Z :=
  let bid_limit := limit - Z.max position 0 in
  let ask_limit := - limit - Z.min position 0 in
  let bid_skew := Qfloor (skew * inject_Z (Z.max position 0)) in
  let ask_skew := Qceiling (skew * inject_Z (Z.min position 0)) in
  let bid_quantity := Z.max (bid_limit - bid_skew) 0 in
  let ask_quantity := Z.min (ask_limit - ask_skew) 0 in
  let bid_quantity := Z.max (Z.min bid_limit (bid_quantity + shift)) 0 in
  let ask_quantity := Z.min (Z.max ask_limit (ask_quantity + shift)) 0 in
  (bid_quantity, ask_quantity).

Definition inventory_skew (self : Status.t) (sma : Q) (price spread : Q)
    (skew sma_scale : Q) : Exc (list Order) :=
  let '(bid_price, ask_price) := quote_prices price spread in
  if stop_loss self then
    ask_quantity ←
      getitem (sell_orders (Status.order_depth self)) (Status.best_ask self);
    bid_quantity ←
      getitem (buy_orders (Status.order_depth self)) (Status.best_bid self);
    let '(order_price, order_quantity) :=
      if decide (0 < Status.position self)
      then (Status.best_ask self, ask_quantity)
      else (Status.best_bid self, bid_quantity) in
    mret [mkOrder (Status.product self) order_price order_quantity]
  else
    let shift := quantity_shift self sma sma_scale in
    let '(bid_quantity, ask_quantity) :=
      quote_sizes (Status.limit self) (Status.position self) skew shift in
    let orders := [mkOrder (Status.product self) bid_price bid_quantity;
                   mkOrder (Status.product self) ask_price ask_quantity] in
    let orders :=
      if decide (Status.best_ask self < bid_price) then []
      else if decide (ask_price < Status.best_bid self) then []
      else orders in
    mret orders.

(** [market_making], with the keyword defaults of its inner functions:
    [sma_scale = 0.75] for the price, [skew = 0.5] and
    [sma_scale = 2.0] for the sizes. *)
Definition market_making (self : Status.t) (trend sma : Q)
    : Exc (list Order) :=
  let mm_price := mm_price self sma (3 # 4) in
  let mm_spread := mm_spread self trend in
  inventory_skew self sma mm_price mm_spread (1 # 2) 2.

End Strategy.

(** ** class Trader *)

Module Trader.

Definition _data : gmap string Data.entry :=
  {[ "PEARLS"%string := Data.mk (1 # 5) [];
     "BANANAS"%string := Data.mk (2 # 5) [] ]}.

(** [_count_order]: the summed sizes of the buy orders and of the sell
    orders of a list; an empty list skips the loop. *)
Definition _count_order (orders : list Order) : Z * Z :=
  match orders with
  | [] => (0, 0)
  | _ =>
      foldl (fun '(bid_order_count, ask_order_count) order =>
               if decide (0 < quantity order)
               then (bid_order_count + quantity order, ask_order_count)
               else if decide (quantity order < 0)
               then (bid_order_count, ask_order_count + quantity order)
               else (bid_order_count, ask_order_count))
            (0, 0) orders
  end.

(** The moving average of line 286: [sum(...) / 5]. *)
Definition sma_of (data_price : list Q) : Q := (py_sum data_price / 5)%Q.

(** One call of [run]; the class attribute [Trader._data] is threaded
    through explicitly.  The loop body runs once, for ['PEARLS']. *)
Definition run (state : TradingState.t) (_data : gmap string Data.entry)
    : Exc (gmap string (list Order) * gmap string Data.entry) :=
  let product := "PEARLS"%string in
  status ← Status.init product state;
  calculate ← Calculate.init (Status.product status) (Status.state status);
  _data ← Calculate.update_price calculate _data;
  entry ← getitem _data product;
  let trend := Data.trend entry in
  let sma := sma_of (Data.price entry) in
  strategy ← Strategy.init (Status.product status) (Status.state status);
  orders ← Strategy.market_making strategy trend sma;
  mret ({[ product := orders ]}, _data).

End Trader.

(** * Scenarios and auxiliary definitions *)

(** The book of the end-to-end example: asks 5 @ 10 and 3 @ 11, bids
    4 @ 8 and 2 @ 7. *)
Definition book_example : OrderDepth :=
  mkOrderDepth {[ 8 := 4; 7 := 2 ]} {[ 10 := -5; 11 := -3 ]}.

Definition state_example (timestamp : Z) (position : gmap string Z)
    : TradingState.t :=
  TradingState.mk timestamp {[ "PEARLS"%string := book_example ]} position.

(** What [Status.__init__] establishes about the snapshot it returns. *)
Record constructed (product : string) (state : TradingState.t)
    (self : Status.t) : Prop := {
  c_product : Status.product self = product;
  c_state : Status.state self = state;
  c_order_depth :
    TradingState.order_depths state !! product = Some (Status.order_depth self);
  c_timestamp : Status.timestamp self = TradingState.timestamp state;
  c_position : Status.position self = Status.report_position product state;
  c_limit : Status.limit self = 20;
  c_best_ask :
    py_min (keys (sell_orders (Status.order_depth self)))
    = Ok (Status.best_ask self);
  c_best_bid :
    py_max (keys (buy_orders (Status.order_depth self)))
    = Ok (Status.best_bid self);
  c_mid_price :
    Status.mid_price self
    = (inject_Z (Status.best_ask self + Status.best_bid self) / 2)%Q;
  c_vwap :
    Status.spread_vwap (Status.order_depth self)
    = Ok (Status.eff_spread self, Status.mid_vwap self)
}.

(** A book with bids only. *)
Definition state_no_asks : TradingState.t :=
  TradingState.mk 0 {[ "PEARLS"%string := mkOrderDepth {[ 8 := 4 ]} ∅ ]} ∅.

(** The snapshot of the spec's end-to-end example at timestamp 0. *)
Definition status_example : Status.t :=
  Status.mk "PEARLS" (state_example 0 ∅) book_example 0 0 20 10 8 2
    (18 # 2) (271 # 100) (902 # 100).

(** The example book seen from a long and from a short position at the
    stop-loss threshold, and from positions -10 and 0. *)
Definition state_long : TradingState.t :=
  state_example 0 {[ "PEARLS"%string := 18 ]}.

Definition state_short : TradingState.t :=
  state_example 0 {[ "PEARLS"%string := -18 ]}.

Definition status_long : Status.t :=
  Status.mk "PEARLS" state_long book_example 0 18 20 10 8 2
    (18 # 2) (271 # 100) (902 # 100).

Definition status_short : Status.t :=
  Status.mk "PEARLS" state_short book_example 0 (-18) 20 10 8 2
    (18 # 2) (271 # 100) (902 # 100).

Definition status_short_10 : Status.t :=
  Status.mk "PEARLS" (state_example 0 {[ "PEARLS"%string := -10 ]})
    book_example 0 (-10) 20 10 8 2 (18 # 2) (271 # 100) (902 # 100).

Definition status_flat : Status.t :=
  Status.mk "PEARLS" (state_example 0 {[ "PEARLS"%string := 0 ]})
    book_example 0 0 20 10 8 2 (18 # 2) (271 # 100) (902 # 100).

(** The position once every order of the list is filled in full. *)
Definition position_after (position : Z) (orders : list Order) : Z :=
  foldl (fun p order => p + quantity order) position orders.

Definition within_limit (limit position : Z) : Prop :=
  - limit <= position <= limit.

(** A long position of 18 in front of 50 units resting at the best ask. *)
Definition state_deep_ask : TradingState.t :=
  TradingState.mk 0
    {[ "PEARLS"%string := mkOrderDepth {[ 8 := 4 ]} {[ 10 := -50 ]} ]}
    {[ "PEARLS"%string := 18 ]}.

Definition status_deep_ask : Status.t :=
  Status.mk "PEARLS" state_deep_ask
    (mkOrderDepth {[ 8 := 4 ]} {[ 10 := -50 ]}) 0 18 20 10 8 2
    (18 # 2) (200 # 100) (900 # 100).

(** [lra] does not read [_ / 2]: write it as a product by [1 # 2]. *)
Ltac halves :=
  unfold Qdiv in *; change (/ 2)%Q with (1 # 2)%Q in *.

(** The book of one bid at 8 and one ask at 10: the reservation price is
    the integer 9. *)
Definition state_touch_only : TradingState.t :=
  TradingState.mk 0
    {[ "PEARLS"%string := mkOrderDepth {[ 8 := 4 ]} {[ 10 := -5 ]} ]} ∅.

Definition status_touch_only : Status.t :=
  Status.mk "PEARLS" state_touch_only
    (mkOrderDepth {[ 8 := 4 ]} {[ 10 := -5 ]}) 0 0 20 10 8 2
    (18 # 2) (200 # 100) (900 # 100).

(** [update_price] once per snapshot, in order, on the shared [data]. *)
Fixpoint updates (selfs : list Status.t) (data : gmap string Data.entry)
    : Exc (gmap string Data.entry) :=
  match selfs with
  | [] => mret data
  | self :: selfs' =>
      data' ← Calculate.update_price self data;
      updates selfs' data'
  end.

(** A tick of a one-level book: one bid at [best_bid], one ask two above. *)
Definition state_tick (i : nat) (best_bid : Z) : TradingState.t :=
  TradingState.mk (100 * Z.of_nat i)
    {[ "PEARLS"%string :=
         mkOrderDepth {[ best_bid := 1 ]} {[ best_bid + 2 := -1 ]} ]} ∅.

Definition status_tick (i : nat) (best_bid : Z) : Status.t :=
  Status.mk "PEARLS" (state_tick i best_bid)
    (mkOrderDepth {[ best_bid := 1 ]} {[ best_bid + 2 := -1 ]})
    (100 * Z.of_nat i) 0 20 (best_bid + 2) best_bid 2
    (Qmake (best_bid + 2 + best_bid) 2) (200 # 100)
    (Qmake (100 * (best_bid + 1)) 100).

Definition bids_example : list Z := [8; 9; 7; 8; 10; 9; 11].

Definition ticks_example : list Status.t := imap status_tick bids_example.

(** The summed resting quantity of one side of a book. *)
Definition volume (orders : gmap Z Z) : Z :=
  foldr Z.add 0 (map_to_list orders).*2.

(** A book whose asks cancel out: -5 @ 10 and +5 @ 11. *)
Definition state_zero_volume : TradingState.t :=
  TradingState.mk 0
    {[ "PEARLS"%string :=
         mkOrderDepth {[ 8 := 4 ]} {[ 10 := -5; 11 := 5 ]} ]} ∅.

(** A product that has a book but no position limit. *)
Definition state_coconuts : TradingState.t :=
  TradingState.mk 0 {[ "COCONUTS"%string := book_example ]} ∅.

(** Ticks of a one-level book after the warm-up: timestamps 500, 700 and
    1200. *)
Definition late_ticks_example : list Status.t :=
  [status_tick 5 8; status_tick 7 9; status_tick 12 7].








(** The example book at timestamp 500, met with a window of two
    entries. *)
Definition status_late : Status.t :=
  Status.mk "PEARLS" (state_example 500 ∅) book_example 500 0 20 10 8 2
    (18 # 2) (271 # 100) (902 # 100).

Definition data_two_entries : gmap string Data.entry :=
  <["PEARLS"%string := Data.mk (1 # 5) [9; 10]%Q]> Trader._data.

(** * Properties *)

(** ** The error monad and the built-ins *)

Lemma bind_Ok_inv {A B : Type} (c : Exc A) (f : A -> Exc B) (b : B) :
  c ≫= f = Ok b -> exists a, c = Ok a /\ f a = Ok b.
Proof. destruct c as [a|e]; [eauto | discriminate]. Qed.

Lemma getitem_Ok {K : Type} `{Countable K} {V : Type}
    (d : gmap K V) (k : K) (v : V) :
  getitem d k = Ok v <-> d !! k = Some v.
Proof.
  unfold getitem. destruct (d !! k); split; intros E;
    (discriminate || by inversion E).
Qed.

Lemma foldl_min_elem (l : list Z) (x : Z) : foldl Z.min x l ∈ x :: l.
Proof.
  revert x. induction l as [|y l IH]; intros x; simpl; [set_solver|].
  specialize (IH (Z.min x y)).
  apply elem_of_cons in IH as [E|E]; [|set_solver].
  rewrite E. destruct (Z.min_spec x y) as [[_ ->]|[_ ->]]; set_solver.
Qed.

Lemma foldl_max_elem (l : list Z) (x : Z) : foldl Z.max x l ∈ x :: l.
Proof.
  revert x. induction l as [|y l IH]; intros x; simpl; [set_solver|].
  specialize (IH (Z.max x y)).
  apply elem_of_cons in IH as [E|E]; [|set_solver].
  rewrite E. destruct (Z.max_spec x y) as [[_ ->]|[_ ->]]; set_solver.
Qed.

Lemma py_min_elem (l : list Z) (x : Z) : py_min l = Ok x -> x ∈ l.
Proof.
  destruct l; simpl; [discriminate|]. intros [= <-]. apply foldl_min_elem.
Qed.

Lemma py_max_elem (l : list Z) (x : Z) : py_max l = Ok x -> x ∈ l.
Proof.
  destruct l; simpl; [discriminate|]. intros [= <-]. apply foldl_max_elem.
Qed.

Lemma keys_elem {V : Type} (d : gmap Z V) (k : Z) :
  k ∈ keys d <-> is_Some (d !! k).
Proof.
  unfold keys. rewrite list_elem_of_fmap. split.
  - intros [[k' v] [-> Hin]]. apply elem_of_map_to_list in Hin. by exists v.
  - intros [v Hv]. exists (k, v). split; [done|]. by apply elem_of_map_to_list.
Qed.

Lemma keys_empty {V : Type} (d : gmap Z V) : keys d = [] <-> d = ∅.
Proof.
  unfold keys. split.
  - intros E. apply fmap_nil_inv in E. by apply map_to_list_empty_iff.
  - intros ->. by rewrite map_to_list_empty.
Qed.

Lemma py_min_keys_empty {V : Type} (d : gmap Z V) :
  d = ∅ -> py_min (keys d) = Raise ValueError.
Proof. intros E. apply keys_empty in E. by rewrite E. Qed.

Lemma py_max_keys_empty {V : Type} (d : gmap Z V) :
  d = ∅ -> py_max (keys d) = Raise ValueError.
Proof. intros E. apply keys_empty in E. by rewrite E. Qed.

(** ** What a constructed [Status] holds *)

Lemma POSITION_LIMITS_20 (product : string) (limit : Z) :
  Status.POSITION_LIMITS !! product = Some limit -> limit = 20.
Proof.
  unfold Status.POSITION_LIMITS. intros E.
  apply lookup_insert_Some in E as [[_ E]|[_ E]]; [done|].
  apply lookup_singleton_Some in E as [_ E]. done.
Qed.

Lemma init_constructed (product : string) (state : TradingState.t)
    (self : Status.t) :
  Status.init product state = Ok self -> constructed product state self.
Proof.
  unfold Status.init. intros E.
  apply bind_Ok_inv in E as (od & Eod & E). apply getitem_Ok in Eod.
  apply bind_Ok_inv in E as (lim & Elim & E). apply getitem_Ok in Elim.
  apply POSITION_LIMITS_20 in Elim as ->.
  apply bind_Ok_inv in E as (ba & Eba & E).
  apply bind_Ok_inv in E as (bb & Ebb & E).
  simpl in E.
  apply bind_Ok_inv in E as ([es mv] & Ev & E).
  injection E as <-. by constructor.
Qed.

Lemma constructed_touch (product : string) (state : TradingState.t)
    (self : Status.t) :
  constructed product state self ->
  is_Some (sell_orders (Status.order_depth self) !! Status.best_ask self) /\
  is_Some (buy_orders (Status.order_depth self) !! Status.best_bid self).
Proof.
  intros C. split; apply keys_elem.
  - apply py_min_elem, C.
  - apply py_max_elem, C.
Qed.

(** ** Snapshot construction on a one-sided book *)

Lemma init_Ok_both_sides (product : string) (state : TradingState.t)
    (self : Status.t) :
  Status.init product state = Ok self ->
  sell_orders (Status.order_depth self) <> ∅ /\
  buy_orders (Status.order_depth self) <> ∅.
Proof.
  intros E. apply init_constructed in E as C. split; intros Hempty.
  - pose proof (c_best_ask _ _ _ C) as Hmin.
    rewrite (py_min_keys_empty _ Hempty) in Hmin. discriminate.
  - pose proof (c_best_bid _ _ _ C) as Hmax.
    rewrite (py_max_keys_empty _ Hempty) in Hmax. discriminate.
Qed.

(** C9.  When the buy side or the sell side of the product's order book is
    empty, [Status.__init__] produces no snapshot: it never returns, and
    for a product that has a position limit the exception is the
    [ValueError] of [min]/[max] over an empty key set.  No default price
    or spread is substituted. *)
Theorem init_missing_book_side (product : string) (state : TradingState.t)
    (od : OrderDepth) :
  TradingState.order_depths state !! product = Some od ->
  sell_orders od = ∅ \/ buy_orders od = ∅ ->
  (forall self, Status.init product state <> Ok self) /\
  (is_Some (Status.POSITION_LIMITS !! product) ->
   Status.init product state = Raise ValueError).
Proof.
  intros Hod Hside. split.
  - intros self E. apply init_Ok_both_sides in E as Hne.
    apply init_constructed in E as C.
    pose proof (c_order_depth _ _ _ C) as Hod'.
    rewrite Hod in Hod'. injection Hod' as ->. tauto.
  - intros [limit Hlimit]. unfold Status.init, getitem.
    rewrite Hod, Hlimit. simpl.
    destruct Hside as [Hs|Hb].
    + by rewrite (py_min_keys_empty _ Hs).
    + rewrite (py_max_keys_empty _ Hb).
      unfold py_min. destruct (keys (sell_orders od)); reflexivity.
Qed.

Lemma init_missing_book_side_witness :
  (forall self, Status.init "PEARLS" state_no_asks <> Ok self) /\
  (is_Some (Status.POSITION_LIMITS !! "PEARLS"%string) ->
   Status.init "PEARLS" state_no_asks = Raise ValueError).
Proof.
  apply (init_missing_book_side "PEARLS" state_no_asks
           (mkOrderDepth {[ 8 := 4 ]} ∅)).
  - reflexivity.
  - left. reflexivity.
Defined.

(** ** The position of a product that is absent from the mapping *)

Lemma init_position_only (product : string) (s s0 : TradingState.t) :
  TradingState.timestamp s0 = TradingState.timestamp s ->
  TradingState.order_depths s0 = TradingState.order_depths s ->
  Status.report_position product s0 = Status.report_position product s ->
  match Status.init product s, Status.init product s0 with
  | Ok self, Ok self0 =>
      self0 = Status.mk (Status.product self) s0 (Status.order_depth self)
                (Status.timestamp self) (Status.position self)
                (Status.limit self) (Status.best_ask self)
                (Status.best_bid self) (Status.spread self)
                (Status.mid_price self) (Status.eff_spread self)
                (Status.mid_vwap self)
  | Raise e, Raise e0 => e = e0
  | _, _ => False
  end.
Proof.
  intros Ht Hod Hp. unfold Status.init. rewrite Ht, Hod, Hp.
  destruct (getitem (TradingState.order_depths s) product) as [od|]; [|done].
  simpl. destruct (getitem Status.POSITION_LIMITS product); [|done].
  simpl. destruct (py_min _); [|done].
  simpl. destruct (py_max _); [|done].
  simpl. destruct (Status.spread_vwap od) as [[es mv]|]; done.
Qed.

(** C10.  A product with no entry in [state.position] gets position 0, and
    everything downstream is what it is for the state that maps the
    product to 0 explicitly: construction fails with the same exception or
    succeeds with the same fields (only the stored [state] differs), the
    stop-loss test and the sizes agree, and [market_making] and
    [Trader.run] return the same result. *)
Theorem absent_position_is_zero (product : string) (state : TradingState.t) :
  TradingState.position state !! product = None ->
  let state0 :=
    TradingState.with_position state
      (<[product := 0]> (TradingState.position state)) in
  Status.report_position product state = 0 /\
  match Status.init product state, Status.init product state0 with
  | Ok self, Ok self0 =>
      Status.position self = 0 /\ Status.position self0 = 0 /\
      Status.limit self0 = Status.limit self /\
      Strategy.stop_loss self0 = Strategy.stop_loss self /\
      (forall skew shift,
         Strategy.quote_sizes (Status.limit self0) (Status.position self0)
           skew shift
         = Strategy.quote_sizes (Status.limit self) (Status.position self)
             skew shift) /\
      (forall trend sma,
         Strategy.market_making self0 trend sma
         = Strategy.market_making self trend sma)
  | Raise e, Raise e0 => e = e0
  | _, _ => False
  end /\
  (forall _data,
     product = "PEARLS"%string ->
     Trader.run state0 _data = Trader.run state _data).
Proof.
  intros Habsent state0.
  assert (Hzero : Status.report_position product state = 0).
  { unfold Status.report_position. by rewrite Habsent. }
  assert (Hzero0 : Status.report_position product state0
                   = Status.report_position product state).
  { rewrite Hzero. unfold Status.report_position, state0. simpl.
    by rewrite lookup_insert_eq. }
  pose proof (init_position_only product state state0 eq_refl eq_refl Hzero0)
    as Hinit.
  split; [done|]. split.
  - destruct (Status.init product state) as [self|e] eqn:E,
             (Status.init product state0) as [self0|e0] eqn:E0; try done.
    apply init_constructed in E as C.
    pose proof (c_position _ _ _ C) as Hp. rewrite Hzero in Hp.
    clear E E0 C. destruct self; simpl in *. subst. done.
  - intros _data ->. unfold Trader.run, Calculate.init, Strategy.init.
    destruct (Status.init "PEARLS" state) as [self|e] eqn:E,
             (Status.init "PEARLS" state0) as [self0|e0] eqn:E0;
      try done; [|by subst].
    apply init_constructed in E as C. apply init_constructed in E0 as C0.
    simpl. rewrite (c_product _ _ _ C), (c_product _ _ _ C0).
    rewrite (c_state _ _ _ C), (c_state _ _ _ C0), E, E0. simpl.
    subst self0. done.
Qed.

Lemma absent_position_is_zero_witness :
  let state := state_example 0 ∅ in
  let state0 :=
    TradingState.with_position state
      (<["PEARLS"%string := 0]> (TradingState.position state)) in
  Status.report_position "PEARLS" state = 0 /\
  match Status.init "PEARLS" state, Status.init "PEARLS" state0 with
  | Ok self, Ok self0 =>
      Status.position self = 0 /\ Status.position self0 = 0 /\
      Status.limit self0 = Status.limit self /\
      Strategy.stop_loss self0 = Strategy.stop_loss self /\
      (forall skew shift,
         Strategy.quote_sizes (Status.limit self0) (Status.position self0)
           skew shift
         = Strategy.quote_sizes (Status.limit self) (Status.position self)
             skew shift) /\
      (forall trend sma,
         Strategy.market_making self0 trend sma
         = Strategy.market_making self trend sma)
  | Raise e, Raise e0 => e = e0
  | _, _ => False
  end /\
  (forall _data,
     "PEARLS"%string = "PEARLS"%string ->
     Trader.run state0 _data = Trader.run state _data).
Proof.
  exact (absent_position_is_zero "PEARLS" (state_example 0 ∅) eq_refl).
Defined.

(** ** Warm-up *)

(** Adding the integer 0 leaves a rational as it is, numerator and
    denominator included. *)
Lemma Qplus_0_r_eq (x : Q) : (x + 0)%Q = x.
Proof.
  destruct x as [n d]. unfold Qplus. simpl.
  rewrite Z.mul_1_r, Z.add_0_r, Pos.mul_1_r. reflexivity.
Qed.

(** C5.  While [timestamp < 400] the shift of the reservation price is
    zero, so the reservation price is [mid_vwap], and the shift added to
    both sizes is zero, whatever moving average is passed in; the orders
    of [market_making] do not depend on the moving average. *)
Theorem warm_up_gating (self : Status.t) (sma : Q) :
  Status.timestamp self < 400 ->
  (forall sma_scale,
     Strategy.mm_price self sma sma_scale = Status.mid_vwap self) /\
  (forall sma_scale, Strategy.quantity_shift self sma sma_scale = 0) /\
  (forall trend sma',
     Strategy.market_making self trend sma
     = Strategy.market_making self trend sma').
Proof.
  intros Hwarm. repeat split.
  - intros sma_scale. unfold Strategy.mm_price.
    destruct (decide (Status.timestamp self < 400)); [|done].
    apply Qplus_0_r_eq.
  - intros sma_scale. unfold Strategy.quantity_shift.
    by destruct (decide (Status.timestamp self < 400)).
  - intros trend sma'.
    unfold Strategy.market_making, Strategy.inventory_skew,
      Strategy.mm_price, Strategy.quantity_shift.
    by destruct (decide (Status.timestamp self < 400)).
Qed.

Lemma warm_up_gating_witness :
  (forall sma_scale,
     Strategy.mm_price status_example (7 # 1) sma_scale
     = Status.mid_vwap status_example) /\
  (forall sma_scale,
     Strategy.quantity_shift status_example (7 # 1) sma_scale = 0) /\
  (forall trend sma',
     Strategy.market_making status_example trend (7 # 1)
     = Strategy.market_making status_example trend sma').
Proof.
  apply (warm_up_gating status_example (7 # 1)). simpl. lia.
Defined.

(** ** The two-sided quote never crosses the book *)

(** The result of the two-sided branch, spelled out. *)
Lemma two_sided_orders (self : Status.t) (trend sma : Q) :
  Strategy.stop_loss self = false ->
  Strategy.market_making self trend sma
  = let prices :=
      Strategy.quote_prices (Strategy.mm_price self sma (3 # 4))
                            (Strategy.mm_spread self trend) in
    let sizes :=
      Strategy.quote_sizes (Status.limit self) (Status.position self)
        (1 # 2) (Strategy.quantity_shift self sma 2) in
    Ok (if decide (Status.best_ask self < prices.1) then []
        else if decide (prices.2 < Status.best_bid self) then []
        else [mkOrder (Status.product self) prices.1 sizes.1;
              mkOrder (Status.product self) prices.2 sizes.2]).
Proof.
  intros Hstop. unfold Strategy.market_making, Strategy.inventory_skew.
  rewrite Hstop.
  destruct (Strategy.quote_prices _ _) as [bid_price ask_price].
  destruct (Strategy.quote_sizes _ _ _ _) as [bid_quantity ask_quantity].
  reflexivity.
Qed.


(** C2.  When the stop-loss is not triggered, [market_making] returns
    either no order, exactly when the bid price is above [best_ask] or the
    ask price is below [best_bid], or the pair (bid order, ask order) with
    [bid_price <= best_ask] and [ask_price >= best_bid]. *)
Theorem no_marketable_quote (self : Status.t) (trend sma : Q) :
  Strategy.stop_loss self = false ->
  exists bid_price ask_price orders,
    Strategy.quote_prices (Strategy.mm_price self sma (3 # 4))
                          (Strategy.mm_spread self trend)
    = (bid_price, ask_price) /\
    Strategy.market_making self trend sma = Ok orders /\
    ((orders = [] /\
      (Status.best_ask self < bid_price \/ ask_price < Status.best_bid self))
     \/
     (exists bid_quantity ask_quantity,
        orders = [mkOrder (Status.product self) bid_price bid_quantity;
                  mkOrder (Status.product self) ask_price ask_quantity] /\
        bid_price <= Status.best_ask self /\
        ask_price >= Status.best_bid self)).
Proof.
  intros Hstop. unfold Strategy.market_making, Strategy.inventory_skew.
  destruct (Strategy.quote_prices _ _) as [bid_price ask_price].
  rewrite Hstop.
  destruct (Strategy.quote_sizes _ _ _ _) as [bid_quantity ask_quantity].
  exists bid_price, ask_price.
  destruct (decide (Status.best_ask self < bid_price)) as [Hb|Hb].
  { eexists. split; [done|]. split; [done|]. left. auto. }
  destruct (decide (ask_price < Status.best_bid self)) as [Ha|Ha].
  { eexists. split; [done|]. split; [done|]. left. auto. }
  eexists. split; [done|]. split; [done|]. right.
  exists bid_quantity, ask_quantity. split; [done|]. lia.
Qed.

Lemma no_marketable_quote_witness :
  exists bid_price ask_price orders,
    Strategy.quote_prices (Strategy.mm_price status_example 0 (3 # 4))
                          (Strategy.mm_spread status_example (1 # 5))
    = (bid_price, ask_price) /\
    Strategy.market_making status_example (1 # 5) 0 = Ok orders /\
    ((orders = [] /\
      (Status.best_ask status_example < bid_price
       \/ ask_price < Status.best_bid status_example))
     \/
     (exists bid_quantity ask_quantity,
        orders = [mkOrder (Status.product status_example)
                    bid_price bid_quantity;
                  mkOrder (Status.product status_example)
                    ask_price ask_quantity] /\
        bid_price <= Status.best_ask status_example /\
        ask_price >= Status.best_bid status_example)).
Proof.
  apply (no_marketable_quote status_example (1 # 5) 0). reflexivity.
Defined.

Example status_example_init :
  Status.init "PEARLS" (state_example 0 ∅) = Ok status_example.
Proof. vm_compute. reflexivity. Qed.

(** The end-to-end example: best ask 10, best bid 8, spread 2, mid-price
    9, effective spread 2.71, mid-VWAP 9.02, and a two-sided quote at 8
    and 10. *)
Example end_to_end_example :
  Strategy.market_making status_example (1 # 5) (9 # 5)
  = Ok [mkOrder "PEARLS" 8 20; mkOrder "PEARLS" 10 (-20)].
Proof. vm_compute. reflexivity. Qed.

Example status_long_short_init :
  Status.init "PEARLS" state_long = Ok status_long /\
  Status.init "PEARLS" state_short = Ok status_short.
Proof. split; vm_compute; reflexivity. Qed.

(** ** Stop-loss *)

Lemma stop_loss_iff (self : Status.t) :
  Strategy.stop_loss self = true <->
  ((9 # 10) * inject_Z (Status.limit self)
   <= inject_Z (Z.abs (Status.position self)))%Q.
Proof. unfold Strategy.stop_loss. apply Qle_bool_iff. Qed.


(** The single order of the stop-loss branch, for a snapshot whose touch
    prices are keys of the book. *)
Lemma stop_loss_order (self : Status.t) (trend sma : Q)
    (ask_quantity bid_quantity : Z) :
  Strategy.stop_loss self = true ->
  sell_orders (Status.order_depth self) !! Status.best_ask self
  = Some ask_quantity ->
  buy_orders (Status.order_depth self) !! Status.best_bid self
  = Some bid_quantity ->
  Strategy.market_making self trend sma
  = Ok [if decide (0 < Status.position self)
        then mkOrder (Status.product self) (Status.best_ask self) ask_quantity
        else mkOrder (Status.product self) (Status.best_bid self) bid_quantity].
Proof.
  intros Hstop Hask Hbid.
  unfold Strategy.market_making, Strategy.inventory_skew, getitem.
  destruct (Strategy.quote_prices _ _) as [bid_price ask_price].
  rewrite Hstop, Hask, Hbid. simpl.
  by destruct (decide (0 < Status.position self)).
Qed.





(** ** Inventory skew *)

Lemma Qmult_inject_Z_le (skew : Q) (a b : Z) :
  (0 <= skew)%Q -> a <= b -> (skew * inject_Z a <= skew * inject_Z b)%Q.
Proof.
  intros Hskew Hab. rewrite !(Qmult_comm skew).
  apply Qmult_le_compat_r; [|done]. by rewrite <- Zle_Qle.
Qed.

(** Both sizes fall (weakly) as the position rises. *)
Lemma quote_sizes_antitone (limit p1 p2 : Z) (skew : Q) (shift : Z) :
  (0 <= skew)%Q -> p1 <= p2 ->
  (Strategy.quote_sizes limit p2 skew shift).1
  <= (Strategy.quote_sizes limit p1 skew shift).1 /\
  (Strategy.quote_sizes limit p2 skew shift).2
  <= (Strategy.quote_sizes limit p1 skew shift).2.
Proof.
  intros Hskew Hp. unfold Strategy.quote_sizes. cbn [fst snd].
  assert (Hfloor :
    Qfloor (skew * inject_Z (Z.max p1 0))
    <= Qfloor (skew * inject_Z (Z.max p2 0))).
  { apply Qfloor_resp_le, Qmult_inject_Z_le; [done|lia]. }
  assert (Hceil :
    Qceiling (skew * inject_Z (Z.min p1 0))
    <= Qceiling (skew * inject_Z (Z.min p2 0))).
  { apply Qceiling_resp_le, Qmult_inject_Z_le; [done|lia]. }
  revert Hfloor Hceil.
  generalize (Qfloor (skew * inject_Z (Z.max p1 0)))
             (Qfloor (skew * inject_Z (Z.max p2 0)))
             (Qceiling (skew * inject_Z (Z.min p1 0)))
             (Qceiling (skew * inject_Z (Z.min p2 0))).
  clear Hskew. intros f1 f2 c1 c2 Hfloor Hceil. split; lia.
Qed.

(** The sizes of the two-sided quote stay inside the room to the limit. *)
Lemma quote_sizes_room (limit position : Z) (skew : Q) (shift : Z) :
  Z.abs position <= limit ->
  0 <= (Strategy.quote_sizes limit position skew shift).1
    <= limit - Z.max position 0 /\
  - limit - Z.min position 0
    <= (Strategy.quote_sizes limit position skew shift).2 <= 0.
Proof.
  intros Hroom. unfold Strategy.quote_sizes. cbn [fst snd].
  generalize (Qfloor (skew * inject_Z (Z.max position 0)))
             (Qceiling (skew * inject_Z (Z.min position 0))).
  intros f c. split; lia.
Qed.

(** Two snapshots of the same book at the same tick agree on every field
    but the position (and the stored state). *)
Lemma constructed_same_book (product : string) (s1 s2 : TradingState.t)
    (self1 self2 : Status.t) :
  TradingState.timestamp s2 = TradingState.timestamp s1 ->
  TradingState.order_depths s2 = TradingState.order_depths s1 ->
  constructed product s1 self1 -> constructed product s2 self2 ->
  self2 = Status.mk (Status.product self1) s2 (Status.order_depth self1)
            (Status.timestamp self1) (Status.position self2)
            (Status.limit self1) (Status.best_ask self1)
            (Status.best_bid self1) (Status.spread self2)
            (Status.mid_price self1) (Status.eff_spread self1)
            (Status.mid_vwap self1).
Proof.
  intros Ht Hod C1 C2.
  destruct C1 as [P1 S1 O1 T1 _ L1 A1 B1 M1 V1].
  destruct C2 as [P2 S2 O2 T2 _ L2 A2 B2 M2 V2].
  rewrite Hod, O1 in O2. injection O2 as O2.
  rewrite <- O2 in A2, B2, V2.
  rewrite A1 in A2. injection A2 as A2.
  rewrite B1 in B2. injection B2 as B2.
  rewrite V1 in V2. injection V2 as V2e V2m.
  rewrite <- A2, <- B2, <- M1 in M2.
  rewrite <- Ht, <- T2 in T1.
  destruct self1, self2; simpl in *. congruence.
Qed.

(** C4 as stated fails: on the example book at timestamp 0, raising the
    position from -10 to 0 (neither triggers the stop-loss) takes the ask
    quantity from -5 to -20, which is more negative. *)
Lemma inventory_skew_monotone_counterexample :
  Status.init "PEARLS"
    (TradingState.with_position (state_example 0 ∅)
       {[ "PEARLS"%string := -10 ]}) = Ok status_short_10 /\
  Status.init "PEARLS"
    (TradingState.with_position (state_example 0 ∅)
       {[ "PEARLS"%string := 0 ]}) = Ok status_flat /\
  Status.position status_short_10 < Status.position status_flat /\
  Strategy.stop_loss status_short_10 = false /\
  Strategy.stop_loss status_flat = false /\
  Strategy.market_making status_short_10 (1 # 5) 0
  = Ok [mkOrder "PEARLS" 8 20; mkOrder "PEARLS" 10 (-5)] /\
  Strategy.market_making status_flat (1 # 5) 0
  = Ok [mkOrder "PEARLS" 8 20; mkOrder "PEARLS" 10 (-20)] /\
  ~ (-5 <= -20).
Proof.
  repeat split; try (vm_compute; reflexivity). lia.
Qed.

(** C4, amended.  For two snapshots of the same book at the same tick
    with positions [p1 < p2], neither triggering the stop-loss, and the
    same trend and moving average: either both quotes are rejected, or
    both are emitted at the same prices, the bid quantity at [p2] is not
    greater than at [p1], and the ask quantity at [p2] is not greater
    (not less negative) than at [p1]: a longer position buys no more and
    sells no less. *)
Theorem inventory_skew_monotone (product : string) (state : TradingState.t)
    (pos1 pos2 : gmap string Z) (self1 self2 : Status.t) (trend sma : Q) :
  Status.init product (TradingState.with_position state pos1) = Ok self1 ->
  Status.init product (TradingState.with_position state pos2) = Ok self2 ->
  Status.position self1 < Status.position self2 ->
  Strategy.stop_loss self1 = false ->
  Strategy.stop_loss self2 = false ->
  exists orders1 orders2,
    Strategy.market_making self1 trend sma = Ok orders1 /\
    Strategy.market_making self2 trend sma = Ok orders2 /\
    ((orders1 = [] /\ orders2 = []) \/
     (exists bid_price ask_price bid1 ask1 bid2 ask2,
        orders1 = [mkOrder product bid_price bid1;
                   mkOrder product ask_price ask1] /\
        orders2 = [mkOrder product bid_price bid2;
                   mkOrder product ask_price ask2] /\
        bid2 <= bid1 /\ ask2 <= ask1)).
Proof.
  intros E1 E2 Hlt Hs1 Hs2.
  apply init_constructed in E1 as C1. apply init_constructed in E2 as C2.
  pose proof (constructed_same_book product
                (TradingState.with_position state pos1)
                (TradingState.with_position state pos2) self1 self2
                eq_refl eq_refl C1 C2) as Heq.
  pose proof (c_product _ _ _ C1) as Hp1.
  pose proof (f_equal Status.product Heq) as Hp2.
  pose proof (f_equal Status.timestamp Heq) as Ht.
  pose proof (f_equal Status.limit Heq) as Hl.
  pose proof (f_equal Status.best_ask Heq) as Hba.
  pose proof (f_equal Status.best_bid Heq) as Hbb.
  pose proof (f_equal Status.mid_price Heq) as Hmp.
  pose proof (f_equal Status.eff_spread Heq) as Hes.
  pose proof (f_equal Status.mid_vwap Heq) as Hmv.
  cbn [Status.product Status.timestamp Status.limit Status.best_ask
       Status.best_bid Status.mid_price Status.eff_spread Status.mid_vwap]
    in Hp2, Ht, Hl, Hba, Hbb, Hmp, Hes, Hmv.
  rewrite (two_sided_orders self1 trend sma Hs1).
  rewrite (two_sided_orders self2 trend sma Hs2).
  unfold Strategy.mm_price, Strategy.mm_spread, Strategy.quantity_shift.
  rewrite Hp2, Ht, Hl, Hba, Hbb, Hmp, Hes, Hmv, Hp1. cbn zeta.
  destruct (quote_sizes_antitone (Status.limit self1)
              (Status.position self1) (Status.position self2) (1 # 2)
              (if decide (Status.timestamp self1 < 400) then 0
               else py_round (- 2 * (Status.mid_price self1 - sma))))
    as [Hbid Hask]; [done|lia|].
  do 2 eexists. split; [reflexivity|]. split; [reflexivity|].
  destruct (decide (Status.best_ask self1 < _)); [by left|].
  destruct (decide (_ < Status.best_bid self1)); [by left|].
  right. do 6 eexists. split; [reflexivity|]. split; [reflexivity|].
  split; assumption.
Qed.

Lemma inventory_skew_monotone_witness :
  exists orders1 orders2,
    Strategy.market_making status_short_10 (1 # 5) 0 = Ok orders1 /\
    Strategy.market_making status_flat (1 # 5) 0 = Ok orders2 /\
    ((orders1 = [] /\ orders2 = []) \/
     (exists bid_price ask_price bid1 ask1 bid2 ask2,
        orders1 = [mkOrder "PEARLS" bid_price bid1;
                   mkOrder "PEARLS" ask_price ask1] /\
        orders2 = [mkOrder "PEARLS" bid_price bid2;
                   mkOrder "PEARLS" ask_price ask2] /\
        bid2 <= bid1 /\ ask2 <= ask1)).
Proof.
  apply (inventory_skew_monotone "PEARLS" (state_example 0 ∅)
           {[ "PEARLS"%string := -10 ]} {[ "PEARLS"%string := 0 ]}
           status_short_10 status_flat (1 # 5) 0).
  - vm_compute. reflexivity.
  - vm_compute. reflexivity.
  - simpl. lia.
  - reflexivity.
  - reflexivity.
Defined.

(** ** Position limit *)

Lemma no_stop_loss_room (self : Status.t) :
  Strategy.stop_loss self = false ->
  Z.abs (Status.position self) <= Status.limit self.
Proof.
  intros Hstop. destruct (Z_le_gt_dec (Z.abs (Status.position self))
                            (Status.limit self)) as [|Hgt]; [done|].
  assert (Strategy.stop_loss self = true) as Htrue; [|congruence].
  apply stop_loss_iff. unfold Qle. simpl. lia.
Qed.

(** The two-sided branch keeps to the limit: with the bid filled, with the
    ask filled, and with both filled. *)
Lemma two_sided_respects_limit (self : Status.t) (trend sma : Q) :
  Strategy.stop_loss self = false ->
  exists orders,
    Strategy.market_making self trend sma = Ok orders /\
    within_limit (Status.limit self)
      (position_after (Status.position self) orders) /\
    forall order, order ∈ orders ->
      within_limit (Status.limit self)
        (Status.position self + quantity order).
Proof.
  intros Hstop. pose proof (no_stop_loss_room self Hstop) as Hroom.
  rewrite (two_sided_orders self trend sma Hstop). cbn zeta.
  destruct (quote_sizes_room (Status.limit self) (Status.position self)
              (1 # 2) (Strategy.quantity_shift self sma 2) Hroom)
    as [Hbid Hask].
  eexists. split; [reflexivity|]. unfold within_limit.
  destruct (decide (Status.best_ask self < _)).
  { split; [simpl; lia|]. intros order Hin. by apply elem_of_nil in Hin. }
  destruct (decide (_ < Status.best_bid self)).
  { split; [simpl; lia|]. intros order Hin. by apply elem_of_nil in Hin. }
  split; [simpl; lia|]. intros order Hin.
  apply elem_of_cons in Hin as [->|Hin]; [simpl; lia|].
  apply elem_of_cons in Hin as [->|Hin]; [simpl; lia|].
  by apply elem_of_nil in Hin.
Qed.

(** C1.  The stop-loss branch does not keep to the position limit: for
    [state_deep_ask] the single order sells the 50 units resting at the
    best ask, and a full fill takes the position from 18 to -32, outside
    [-20, 20].  [Trader.run] returns that order. *)
Theorem stop_loss_exceeds_limit :
  Status.init "PEARLS" state_deep_ask = Ok status_deep_ask /\
  Strategy.stop_loss status_deep_ask = true /\
  Strategy.market_making status_deep_ask (1 # 5) (9 # 5)
  = Ok [mkOrder "PEARLS" 10 (-50)] /\
  Trader.run state_deep_ask Trader._data ≫= (fun r => mret r.1)
  = Ok {[ "PEARLS"%string := [mkOrder "PEARLS" 10 (-50)] ]} /\
  position_after (Status.position status_deep_ask)
    [mkOrder "PEARLS" 10 (-50)] = -32 /\
  ~ within_limit (Status.limit status_deep_ask) (-32).
Proof.
  repeat split; try (vm_compute; reflexivity).
  unfold within_limit. simpl. lia.
Qed.

(** ** Candidate prices *)

Lemma inject_Z_pred (z : Z) : inject_Z (z - 1) = (inject_Z z - 1)%Q.
Proof.
  unfold Z.sub, Qminus. by rewrite inject_Z_plus, inject_Z_opp.
Qed.

Lemma inject_Z_succ (z : Z) : inject_Z (z + 1) = (inject_Z z + 1)%Q.
Proof. by rewrite inject_Z_plus. Qed.

Lemma Qle_bool_false (x y : Q) : Qle_bool x y = false -> (y < x)%Q.
Proof.
  intros Hb. apply Qnot_le_lt. intros Hle.
  apply Qle_bool_iff in Hle. congruence.
Qed.

Section QuotePrices.

Variables price spread : Q.
Hypothesis spread_nonneg : (0 <= spread)%Q.



(** The ask is strictly above the reservation price as soon as that
    price is not an integer or the spread is at least 2. *)
Lemma ask_above :
  (forall z, ~ (price == inject_Z z)%Q) \/ (2 <= spread)%Q ->
  (price < inject_Z (Strategy.quote_prices price spread).2)%Q.
Proof using spread_nonneg.
  intros Hcase.
  unfold Strategy.quote_prices. cbn [snd].
  pose proof (Qle_ceiling (price - spread / 2)) as Hceil.
  pose proof (Qlt_floor (price + spread / 2)) as Hfloor.
  rewrite inject_Z_succ in Hfloor. halves.
  destruct (Qle_bool (inject_Z (Qfloor _)) price) eqn:Ha.
  - apply Qle_bool_iff in Ha.
    assert (Hspread : (spread < 2)%Q) by lra.
    destruct Hcase as [Hfrac|Hwide]; [|lra].
    rewrite inject_Z_succ.
    destruct (Qle_bool price _) eqn:Hb.
    + apply Qle_bool_iff in Hb. rewrite inject_Z_pred.
      destruct (Qlt_le_dec price
                  (inject_Z (Qceiling (price - spread * (1 # 2)))))
        as [Hlt|Hle]; [lra|].
      exfalso. apply (Hfrac (Qceiling (price - spread * (1 # 2)))).
      by apply Qle_antisym.
    + lra.
  - by apply Qle_bool_false in Ha.
Qed.

End QuotePrices.

(** C6.  With reservation price 9 and spread 0 the candidate prices are
    8 and 9: the ask equals the reservation price and is not strictly
    above it.  The engine reaches such a pair on [state_touch_only]
    (reservation price 9, quoted spread 1.6), where it quotes an ask at
    9. *)
Theorem ask_at_reservation_price :
  (0 <= 0)%Q /\
  Strategy.quote_prices 9 0 = (8, 9) /\
  ~ (9 < inject_Z (Strategy.quote_prices 9 0).2)%Q /\
  Status.init "PEARLS" state_touch_only = Ok status_touch_only /\
  (Strategy.mm_price status_touch_only 0 (3 # 4) == 9)%Q /\
  (Strategy.mm_spread status_touch_only (1 # 5) == 8 # 5)%Q /\
  Strategy.market_making status_touch_only (1 # 5) 0
  = Ok [mkOrder "PEARLS" 8 20; mkOrder "PEARLS" 9 (-20)].
Proof.
  repeat split; try (vm_compute; reflexivity); try (vm_compute; discriminate).
Qed.

(** ** The price window *)

Lemma tail_drop {A : Type} (n : nat) (l : list A) :
  tail (drop n l) = drop (S n) l.
Proof.
  revert l. induction n as [|n IH]; intros [|x l]; simpl; done.
Qed.

(** One update keeps the window equal to the last five prices seen. *)
Lemma update_window_last5 (k : nat) (mid_price : Q) (seen : list Q) :
  length seen = k ->
  Calculate.update_window (100 * Z.of_nat k) mid_price (drop (k - 5) seen)
  = drop (S k - 5) (seen ++ [mid_price]).
Proof.
  intros Hlen. unfold Calculate.update_window.
  destruct (decide (400 < 100 * Z.of_nat k)) as [Hlate|Hearly].
  - rewrite tail_drop.
    replace (S (k - 5)) with (S k - 5)%nat by lia.
    rewrite drop_app_le; [done|lia].
  - replace (k - 5)%nat with 0%nat by lia.
    replace (S k - 5)%nat with 0%nat by lia.
    by rewrite !drop_0.
Qed.

Lemma updates_from (product : string) (selfs : list Status.t) :
  forall (k : nat) (seen : list Q) (data : gmap string Data.entry)
         (entry : Data.entry),
    data !! product = Some entry ->
    length seen = k ->
    Data.price entry = drop (k - 5) seen ->
    (forall i self, selfs !! i = Some self ->
       Status.product self = product /\
       Status.timestamp self = 100 * Z.of_nat (k + i)) ->
    exists data' entry',
      updates selfs data = Ok data' /\
      data' !! product = Some entry' /\
      Data.trend entry' = Data.trend entry /\
      Data.price entry'
      = drop (k + length selfs - 5) (seen ++ (Status.mid_price <$> selfs)).
Proof.
  induction selfs as [|self selfs IH]; intros k seen data entry Hd Hk Hw Hts.
  - exists data, entry. simpl. rewrite app_nil_r, Nat.add_0_r. done.
  - destruct (Hts 0%nat self eq_refl) as [Hp Ht].
    rewrite Nat.add_0_r in Ht.
    simpl. unfold Calculate.update_price, getitem. rewrite Hp, Hd. simpl.
    rewrite Hw, Ht, (update_window_last5 k _ seen Hk).
    edestruct (IH (S k) (seen ++ [Status.mid_price self])
                 (<[product := Data.mk (Data.trend entry)
                      (drop (S k - 5) (seen ++ [Status.mid_price self]))]>
                    data))
      as (data' & entry' & Hrun & Hd' & Htrend & Hprice).
    + apply lookup_insert_eq.
    + rewrite length_app. simpl. lia.
    + reflexivity.
    + intros i self' Hi. destruct (Hts (S i) self' Hi) as [Hp' Ht'].
      split; [done|]. rewrite Ht'. f_equal. lia.
    + exists data', entry'. split; [done|]. split; [done|]. split; [done|].
      rewrite Hprice, <- app_assoc. simpl. f_equal. lia.
Qed.

(** C7.  Starting from an empty window, after one [update_price] per tick
    at timestamps 0, 100, 200, ... the window holds the last five
    mid-prices in arrival order (all of them while fewer than five have
    arrived), so its length is [min n 5] after [n] updates and never
    exceeds 5. *)
Theorem history_window_fifo (product : string) (selfs : list Status.t)
    (data : gmap string Data.entry) (entry : Data.entry) :
  data !! product = Some entry ->
  Data.price entry = [] ->
  (forall i self, selfs !! i = Some self ->
     Status.product self = product /\
     Status.timestamp self = 100 * Z.of_nat i) ->
  exists data' entry',
    updates selfs data = Ok data' /\
    data' !! product = Some entry' /\
    Data.price entry'
    = drop (length selfs - 5) (Status.mid_price <$> selfs) /\
    length (Data.price entry') = Nat.min (length selfs) 5 /\
    (length (Data.price entry') <= 5)%nat.
Proof.
  intros Hd Hw Hts.
  destruct (updates_from product selfs 0 [] data entry Hd eq_refl Hw Hts)
    as (data' & entry' & Hrun & Hd' & _ & Hprice).
  simpl in Hprice.
  exists data', entry'. split; [done|]. split; [done|]. split; [done|].
  rewrite Hprice, length_drop, length_fmap. lia.
Qed.

Example ticks_example_init :
  Forall2 (fun state self => Status.init "PEARLS" state = Ok self)
    (imap state_tick bids_example) ticks_example.
Proof. repeat constructor. Qed.

Lemma history_window_fifo_witness :
  exists data' entry',
    updates ticks_example Trader._data = Ok data' /\
    data' !! "PEARLS"%string = Some entry' /\
    Data.price entry'
    = drop (length ticks_example - 5) (Status.mid_price <$> ticks_example) /\
    length (Data.price entry') = Nat.min (length ticks_example) 5 /\
    (length (Data.price entry') <= 5)%nat.
Proof.
  apply (history_window_fifo "PEARLS" ticks_example Trader._data
           (Data.mk (1 # 5) [])).
  - reflexivity.
  - reflexivity.
  - intros i self Hi.
    do 7 (destruct i as [|i];
          [injection Hi as <-; split; reflexivity|]).
    discriminate Hi.
Defined.

Example history_window_after_7 :
  updates ticks_example Trader._data
  ≫= (fun data => entry ← getitem data "PEARLS"%string;
                  mret (Data.price entry))
  = Ok [16 # 2; 18 # 2; 22 # 2; 20 # 2; 24 # 2].
Proof. vm_compute. reflexivity. Qed.

(** ** The moving average *)

Lemma foldl_Qplus (l : list Q) (a : Q) :
  (foldl Qplus a l == a + py_sum l)%Q.
Proof.
  unfold py_sum. revert a. induction l as [|x l IH]; intros a; simpl.
  - ring.
  - rewrite (IH (a + x)%Q), (IH (0 + x)%Q). ring.
Qed.

Lemma py_sum_app (l1 l2 : list Q) :
  (py_sum (l1 ++ l2) == py_sum l1 + py_sum l2)%Q.
Proof. unfold py_sum at 1. rewrite foldl_app. apply foldl_Qplus. Qed.

Lemma py_sum_zeros (n : nat) : (py_sum (replicate n 0%Q) == 0)%Q.
Proof.
  induction n as [|n IH]; [reflexivity|].
  change (replicate (S n) 0%Q) with ([0%Q] ++ replicate n 0%Q).
  rewrite py_sum_app, IH. reflexivity.
Qed.

(** A successful [Status.init] is repeated by the subclass constructors. *)
Lemma init_again (product : string) (state : TradingState.t)
    (self : Status.t) :
  Status.init product state = Ok self ->
  Status.init (Status.product self) (Status.state self) = Ok self.
Proof.
  intros E. apply init_constructed in E as C.
  by rewrite (c_product _ _ _ C), (c_state _ _ _ C).
Qed.

(** C8.  Whenever [Trader.run] returns, the orders are those of
    [market_making] called with the moving average of the updated
    window, and for every window of zero to five entries that moving
    average is the sum of the entries divided by 5, whatever their
    number: entries that do not exist yet count as zero, the average of a
    window being the average of the window padded with zeros to five
    entries. *)
Theorem fixed_divisor_sma (state : TradingState.t)
    (_data _data' : gmap string Data.entry)
    (result : gmap string (list Order)) :
  Trader.run state _data = Ok (result, _data') ->
  (exists self entry orders,
     Status.init "PEARLS" state = Ok self /\
     Calculate.update_price self _data = Ok _data' /\
     _data' !! "PEARLS"%string = Some entry /\
     Strategy.market_making self (Data.trend entry)
       (Trader.sma_of (Data.price entry))
     = Ok orders /\
     result = {[ "PEARLS"%string := orders ]}) /\
  (forall a b c d e : Q,
     (Trader.sma_of [] == 0)%Q /\
     (Trader.sma_of [a] == a / 5)%Q /\
     (Trader.sma_of [a; b] == (a + b) / 5)%Q /\
     (Trader.sma_of [a; b; c] == (a + b + c) / 5)%Q /\
     (Trader.sma_of [a; b; c; d] == (a + b + c + d) / 5)%Q /\
     (Trader.sma_of [a; b; c; d; e] == (a + b + c + d + e) / 5)%Q) /\
  (forall w : list Q,
     (length w <= 5)%nat ->
     (Trader.sma_of w
      == Trader.sma_of (w ++ replicate (5 - length w) 0))%Q /\
     length (w ++ replicate (5 - length w) 0%Q) = 5%nat).
Proof.
  unfold Trader.run, Calculate.init, Strategy.init. intros E.
  split; [|split].
  - apply bind_Ok_inv in E as (self & Einit & E).
    rewrite (init_again _ _ _ Einit) in E. simpl in E.
    apply bind_Ok_inv in E as (data1 & Eupd & E).
    apply bind_Ok_inv in E as (entry & Eentry & E).
    apply getitem_Ok in Eentry.
    apply bind_Ok_inv in E as (orders & Eorders & E).
    injection E as <- <-.
    exists self, entry, orders. repeat (split; [done|]). done.
  - intros a b c d e.
    repeat split; unfold Trader.sma_of, py_sum; simpl; field.
  - intros w Hlen. split.
    + unfold Trader.sma_of. rewrite py_sum_app, py_sum_zeros. field.
    + rewrite length_app, length_replicate. lia.
Qed.

(** At timestamp 500, on a window of two entries, the quote depends on
    the moving average: with the fixed divisor it is 19/5 and the quote is
    rejected. *)
Lemma fixed_divisor_sma_witness :
  (exists self entry orders,
     Status.init "PEARLS" (state_example 500 ∅) = Ok self /\
     Calculate.update_price self data_two_entries
     = Ok (<["PEARLS"%string := Data.mk (1 # 5) [10; 18 # 2]%Q]>
             data_two_entries) /\
     (<["PEARLS"%string := Data.mk (1 # 5) [10; 18 # 2]%Q]> data_two_entries)
       !! "PEARLS"%string = Some entry /\
     Strategy.market_making self (Data.trend entry)
       (Trader.sma_of (Data.price entry))
     = Ok orders /\
     ({[ "PEARLS"%string := [] ]} : gmap string (list Order))
     = {[ "PEARLS"%string := orders ]}) /\
  (forall a b c d e : Q,
     (Trader.sma_of [] == 0)%Q /\
     (Trader.sma_of [a] == a / 5)%Q /\
     (Trader.sma_of [a; b] == (a + b) / 5)%Q /\
     (Trader.sma_of [a; b; c] == (a + b + c) / 5)%Q /\
     (Trader.sma_of [a; b; c; d] == (a + b + c + d) / 5)%Q /\
     (Trader.sma_of [a; b; c; d; e] == (a + b + c + d + e) / 5)%Q) /\
  (forall w : list Q,
     (length w <= 5)%nat ->
     (Trader.sma_of w
      == Trader.sma_of (w ++ replicate (5 - length w) 0))%Q /\
     length (w ++ replicate (5 - length w) 0%Q) = 5%nat).
Proof.
  apply (fixed_divisor_sma (state_example 500 ∅) data_two_entries).
  vm_compute. reflexivity.
Defined.

Example status_late_init :
  Status.init "PEARLS" (state_example 500 ∅) = Ok status_late.
Proof. vm_compute. reflexivity. Qed.

(** The divisor decides the quote: after the update the window is
    [10; 9]; with the moving average 19/5 that [run] computes the quote
    is rejected, with the mean 19/2 of the two entries it would be
    emitted. *)
Example sma_divisor_decides :
  Trader.run (state_example 500 ∅) data_two_entries
  ≫= (fun r => mret (r.1 !! "PEARLS"%string))
  = Ok (Some []) /\
  (Trader.sma_of [10; 18 # 2]%Q == 19 # 5)%Q /\
  Strategy.market_making status_late (1 # 5)
    (Trader.sma_of [10; 18 # 2]%Q)
  = Ok [] /\
  Strategy.market_making status_late (1 # 5) (19 # 2)
  = Ok [mkOrder "PEARLS" 9 20; mkOrder "PEARLS" 10 (-19)].
Proof. repeat split; vm_compute; reflexivity. Qed.

Example sma_first_tick :
  (Trader.sma_of [18 # 2] == 9 # 5)%Q /\ ~ (Trader.sma_of [18 # 2] == 9)%Q.
Proof. split; vm_compute; [reflexivity|discriminate]. Qed.

(** ** When snapshot construction succeeds *)

Lemma side_sums_volume (orders : gmap Z Z) :
  (Status.side_sums orders).2 = volume orders.
Proof.
  unfold Status.side_sums, volume. rewrite map_fold_foldr.
  induction (map_to_list orders) as [|[price quantity] l IH]; [done|].
  simpl. destruct (foldr _ _ l) as [numerator denominator].
  simpl in *. subst denominator. apply Z.add_comm.
Qed.

Lemma vwap_zero_volume (orders : gmap Z Z) :
  volume orders = 0 -> Status.vwap orders = Raise ZeroDivisionError.
Proof.
  intros Hvol. unfold Status.vwap, Status.truediv.
  pose proof (side_sums_volume orders) as Hden.
  destruct (Status.side_sums orders) as [numerator denominator].
  simpl in Hden. destruct (decide (denominator = 0)); [done|lia].
Qed.

Lemma vwap_nonzero_volume (orders : gmap Z Z) :
  volume orders <> 0 -> exists v, Status.vwap orders = Ok v.
Proof.
  intros Hvol. unfold Status.vwap, Status.truediv.
  pose proof (side_sums_volume orders) as Hden.
  destruct (Status.side_sums orders) as [numerator denominator].
  simpl in Hden. destruct (decide (denominator = 0)); [lia|eauto].
Qed.

Lemma vwap_Ok_volume (orders : gmap Z Z) (v : Q) :
  Status.vwap orders = Ok v -> volume orders <> 0.
Proof.
  intros E Hvol. rewrite (vwap_zero_volume orders Hvol) in E. discriminate.
Qed.

Lemma py_min_keys_Ok {V : Type} (d : gmap Z V) :
  d <> ∅ -> exists k, py_min (keys d) = Ok k.
Proof.
  intros Hne. destruct (keys d) as [|k l] eqn:E.
  - by apply keys_empty in E.
  - simpl. eauto.
Qed.

Lemma py_max_keys_Ok {V : Type} (d : gmap Z V) :
  d <> ∅ -> exists k, py_max (keys d) = Ok k.
Proof.
  intros Hne. destruct (keys d) as [|k l] eqn:E.
  - by apply keys_empty in E.
  - simpl. eauto.
Qed.

Lemma init_Ok_intro (product : string) (state : TradingState.t)
    (od : OrderDepth) :
  TradingState.order_depths state !! product = Some od ->
  is_Some (Status.POSITION_LIMITS !! product) ->
  sell_orders od <> ∅ -> buy_orders od <> ∅ ->
  volume (sell_orders od) <> 0 -> volume (buy_orders od) <> 0 ->
  exists self, Status.init product state = Ok self.
Proof.
  intros Hod [lim Hlim] Hs Hb Hvs Hvb.
  destruct (py_min_keys_Ok _ Hs) as [ba Hba].
  destruct (py_max_keys_Ok _ Hb) as [bb Hbb].
  destruct (vwap_nonzero_volume _ Hvs) as [av Hav].
  destruct (vwap_nonzero_volume _ Hvb) as [bv Hbv].
  unfold Status.init, Status.spread_vwap, getitem.
  rewrite Hod, Hlim. simpl. rewrite Hba, Hbb. simpl.
  rewrite Hav, Hbv. simpl. eauto.
Qed.

(** X1.  [Status.__init__] returns a snapshot exactly when the product
    has an order book and a position limit, both sides of the book are
    non-empty, and the resting quantities of neither side sum to zero. *)
Theorem init_succeeds_iff (product : string) (state : TradingState.t) :
  (exists self, Status.init product state = Ok self) <->
  (exists od,
     TradingState.order_depths state !! product = Some od /\
     is_Some (Status.POSITION_LIMITS !! product) /\
     sell_orders od <> ∅ /\ buy_orders od <> ∅ /\
     volume (sell_orders od) <> 0 /\ volume (buy_orders od) <> 0).
Proof.
  split.
  - intros [self E]. pose proof (init_Ok_both_sides _ _ _ E) as [Hs Hb].
    apply init_constructed in E as C.
    unfold Status.init in E.
    apply bind_Ok_inv in E as (od & Eod & E). apply getitem_Ok in Eod.
    apply bind_Ok_inv in E as (lim & Elim & _). apply getitem_Ok in Elim.
    pose proof (c_order_depth _ _ _ C) as Hod. rewrite Eod in Hod.
    injection Hod as ->.
    pose proof (c_vwap _ _ _ C) as Hv. unfold Status.spread_vwap in Hv.
    apply bind_Ok_inv in Hv as (av & Eav & Hv).
    apply bind_Ok_inv in Hv as (bv & Ebv & _).
    exists (Status.order_depth self). split; [done|]. split; [by exists lim|].
    split; [done|]. split; [done|]. split.
    + by apply (vwap_Ok_volume _ av).
    + by apply (vwap_Ok_volume _ bv).
  - intros (od & Hod & Hlim & Hs & Hb & Hvs & Hvb).
    by apply (init_Ok_intro product state od).
Qed.

(** X2.  A product without an order book, or without an entry in
    [POSITION_LIMITS], makes [Status.__init__] raise [KeyError], whatever
    the book holds. *)
Theorem init_unknown_product (product : string) (state : TradingState.t) :
  TradingState.order_depths state !! product = None \/
  Status.POSITION_LIMITS !! product = None ->
  Status.init product state = Raise KeyError.
Proof.
  intros Hmissing. unfold Status.init, getitem.
  destruct (TradingState.order_depths state !! product) as [od|]; [|done].
  destruct Hmissing as [|Hlim]; [done|]. by rewrite Hlim.
Qed.

Lemma init_unknown_product_witness :
  Status.init "COCONUTS" state_coconuts = Raise KeyError.
Proof.
  apply (init_unknown_product "COCONUTS" state_coconuts).
  right. reflexivity.
Defined.

(** X3.  When the product has a book and a limit and both sides are
    non-empty, but the resting quantities of one side sum to zero,
    [Status.__init__] raises [ZeroDivisionError] from the VWAP. *)
Theorem init_zero_volume (product : string) (state : TradingState.t)
    (od : OrderDepth) :
  TradingState.order_depths state !! product = Some od ->
  is_Some (Status.POSITION_LIMITS !! product) ->
  sell_orders od <> ∅ -> buy_orders od <> ∅ ->
  volume (sell_orders od) = 0 \/ volume (buy_orders od) = 0 ->
  Status.init product state = Raise ZeroDivisionError.
Proof.
  intros Hod [lim Hlim] Hs Hb Hvol.
  destruct (py_min_keys_Ok _ Hs) as [ba Hba].
  destruct (py_max_keys_Ok _ Hb) as [bb Hbb].
  unfold Status.init, Status.spread_vwap, getitem.
  rewrite Hod, Hlim. simpl. rewrite Hba, Hbb. simpl.
  destruct Hvol as [Hvs|Hvb].
  - by rewrite (vwap_zero_volume _ Hvs).
  - rewrite (vwap_zero_volume _ Hvb).
    destruct (Status.vwap (sell_orders od)) as [av|e] eqn:Eav; [done|].
    simpl. unfold Status.vwap, Status.truediv in Eav.
    destruct (Status.side_sums (sell_orders od)) as [n d].
    destruct (decide (d = 0)); congruence.
Qed.

Lemma init_zero_volume_witness :
  Status.init "PEARLS" state_zero_volume = Raise ZeroDivisionError.
Proof.
  apply (init_zero_volume "PEARLS" state_zero_volume
           (mkOrderDepth {[ 8 := 4 ]} {[ 10 := -5; 11 := 5 ]})).
  - reflexivity.
  - exists 20. reflexivity.
  - intros H. apply (f_equal (fun m => m !! 10)) in H. vm_compute in H.
    discriminate H.
  - intros H. apply (f_equal (fun m => m !! 8)) in H. vm_compute in H.
    discriminate H.
  - left. vm_compute. reflexivity.
Defined.

(** ** The touch prices *)

Lemma foldl_min_le_init (l : list Z) (x : Z) : foldl Z.min x l <= x.
Proof.
  revert x. induction l as [|y l IH]; intros x; simpl; [lia|].
  specialize (IH (Z.min x y)). lia.
Qed.

Lemma foldl_min_le (l : list Z) (x y : Z) :
  y ∈ x :: l -> foldl Z.min x l <= y.
Proof.
  revert x. induction l as [|z l IH]; intros x Hin.
  - apply list_elem_of_singleton in Hin as ->. simpl. lia.
  - simpl. apply elem_of_cons in Hin as [->|Hin].
    + pose proof (foldl_min_le_init l (Z.min x z)). lia.
    + apply elem_of_cons in Hin as [->|Hin].
      * pose proof (foldl_min_le_init l (Z.min x z)). lia.
      * apply IH. by right.
Qed.

Lemma foldl_max_ge_init (l : list Z) (x : Z) : x <= foldl Z.max x l.
Proof.
  revert x. induction l as [|y l IH]; intros x; simpl; [lia|].
  specialize (IH (Z.max x y)). lia.
Qed.

Lemma foldl_max_ge (l : list Z) (x y : Z) :
  y ∈ x :: l -> y <= foldl Z.max x l.
Proof.
  revert x. induction l as [|z l IH]; intros x Hin.
  - apply list_elem_of_singleton in Hin as ->. simpl. lia.
  - simpl. apply elem_of_cons in Hin as [->|Hin].
    + pose proof (foldl_max_ge_init l (Z.max x z)). lia.
    + apply elem_of_cons in Hin as [->|Hin].
      * pose proof (foldl_max_ge_init l (Z.max x z)). lia.
      * apply IH. by right.
Qed.

Lemma py_min_le (l : list Z) (x y : Z) : py_min l = Ok x -> y ∈ l -> x <= y.
Proof.
  destruct l; simpl; [discriminate|]. intros [= <-]. apply foldl_min_le.
Qed.

Lemma py_max_ge (l : list Z) (x y : Z) : py_max l = Ok x -> y ∈ l -> y <= x.
Proof.
  destruct l; simpl; [discriminate|]. intros [= <-]. apply foldl_max_ge.
Qed.

(** X4.  In a constructed snapshot [best_ask] is a price level of the
    sell side and no sell level is lower; [best_bid] is a price level of
    the buy side and no buy level is higher. *)
Theorem best_prices_extremal (product : string) (state : TradingState.t)
    (self : Status.t) :
  Status.init product state = Ok self ->
  is_Some (sell_orders (Status.order_depth self) !! Status.best_ask self) /\
  is_Some (buy_orders (Status.order_depth self) !! Status.best_bid self) /\
  (forall p q, sell_orders (Status.order_depth self) !! p = Some q ->
     Status.best_ask self <= p) /\
  (forall p q, buy_orders (Status.order_depth self) !! p = Some q ->
     p <= Status.best_bid self).
Proof.
  intros E. apply init_constructed in E as C.
  destruct (constructed_touch _ _ _ C) as [Ha Hb].
  split; [done|]. split; [done|]. split; intros p q Hp.
  - apply (py_min_le _ _ _ (c_best_ask _ _ _ C)). apply keys_elem. eauto.
  - apply (py_max_ge _ _ _ (c_best_bid _ _ _ C)). apply keys_elem. eauto.
Qed.

Lemma best_prices_extremal_witness :
  is_Some (sell_orders (Status.order_depth status_example)
           !! Status.best_ask status_example) /\
  is_Some (buy_orders (Status.order_depth status_example)
           !! Status.best_bid status_example) /\
  (forall p q, sell_orders (Status.order_depth status_example) !! p = Some q ->
     Status.best_ask status_example <= p) /\
  (forall p q, buy_orders (Status.order_depth status_example) !! p = Some q ->
     p <= Status.best_bid status_example).
Proof.
  apply (best_prices_extremal "PEARLS" (state_example 0 ∅) status_example).
  vm_compute. reflexivity.
Defined.

(** X5.  In a constructed snapshot the mid-price lies between the two
    touch prices, whichever is the larger (the book may be crossed).  The
    touch prices are taken of magnitude at most 2^52, the range in which
    the division of line 57 is exact in double precision. *)
Theorem mid_price_between (product : string) (state : TradingState.t)
    (self : Status.t) :
  Status.init product state = Ok self ->
  Z.abs (Status.best_ask self) <= 2 ^ 52 ->
  Z.abs (Status.best_bid self) <= 2 ^ 52 ->
  (inject_Z (Z.min (Status.best_ask self) (Status.best_bid self))
   <= Status.mid_price self
   <= inject_Z (Z.max (Status.best_ask self) (Status.best_bid self)))%Q.
Proof.
  intros E _ _. apply init_constructed in E as C.
  rewrite (c_mid_price _ _ _ C), inject_Z_plus. halves.
  destruct (Z.le_ge_cases (Status.best_ask self) (Status.best_bid self))
    as [Hle|Hle].
  - rewrite Z.min_l, Z.max_r by done.
    rewrite Zle_Qle in Hle. split; lra.
  - rewrite Z.min_r, Z.max_l by done.
    rewrite Zle_Qle in Hle. split; lra.
Qed.

Lemma mid_price_between_witness :
  (inject_Z (Z.min (Status.best_ask status_example)
                   (Status.best_bid status_example))
   <= Status.mid_price status_example
   <= inject_Z (Z.max (Status.best_ask status_example)
                      (Status.best_bid status_example)))%Q.
Proof.
  apply (mid_price_between "PEARLS" (state_example 0 ∅) status_example).
  - vm_compute. reflexivity.
  - simpl. lia.
  - simpl. lia.
Defined.

(** ** The volume-weighted average price *)

Lemma inject_Z_nonzero (z : Z) : z <> 0 -> ~ (inject_Z z == 0)%Q.
Proof. intros Hz. unfold Qeq. simpl. lia. Qed.

(** X6.  A side with a single price level and a non-zero quantity has
    that price as its VWAP, whatever the quantity.  The price is taken of
    magnitude at most 2^53, the range in which the quotient of line 70 is
    an exact double. *)
Theorem vwap_single_level (p q : Z) :
  q <> 0 ->
  Z.abs p <= 2 ^ 53 ->
  exists v, Status.vwap {[ p := q ]} = Ok v /\ (v == inject_Z p)%Q.
Proof.
  intros Hq _. unfold Status.vwap, Status.side_sums.
  rewrite map_fold_singleton. unfold Status.truediv.
  destruct (decide (0 + q = 0)) as [|_]; [lia|].
  eexists. split; [reflexivity|].
  rewrite !Z.add_0_l, inject_Z_mult. field.
  by apply inject_Z_nonzero.
Qed.

Lemma vwap_single_level_witness :
  exists v, Status.vwap {[ 10 := -5 ]} = Ok v /\ (v == inject_Z 10)%Q.
Proof. apply (vwap_single_level 10 (-5)); lia. Defined.







Lemma sum_negative (l : list Z) :
  l <> [] -> Forall (fun q => q < 0) l -> foldr Z.add 0 l < 0.
Proof.
  intros Hne Hall. induction Hall as [|q l Hq Hall IH]; [done|].
  simpl. destruct l as [|q' l]; [simpl; lia|].
  assert (foldr Z.add 0 (q' :: l) < 0) by (by apply IH). lia.
Qed.

Lemma sum_positive (l : list Z) :
  l <> [] -> Forall (fun q => 0 < q) l -> 0 < foldr Z.add 0 l.
Proof.
  intros Hne Hall. induction Hall as [|q l Hq Hall IH]; [done|].
  simpl. destruct l as [|q' l]; [simpl; lia|].
  assert (0 < foldr Z.add 0 (q' :: l)) by (by apply IH). lia.
Qed.

Lemma quantities_Forall (orders : gmap Z Z) (P : Z -> Prop) :
  (forall p q, orders !! p = Some q -> P q) ->
  Forall P (map_to_list orders).*2.
Proof.
  intros HP. apply Forall_forall. intros q Hq.
  apply list_elem_of_fmap in Hq as [[p q'] [-> Hin]].
  apply elem_of_map_to_list in Hin. by apply (HP p).
Qed.

Lemma quantities_nonempty (orders : gmap Z Z) :
  orders <> ∅ -> (map_to_list orders).*2 <> [].
Proof.
  intros Hne E. apply fmap_nil_inv in E.
  by apply map_to_list_empty_iff in E.
Qed.

(** X8.  On a book written the exchange's way (positive bid quantities,
    negative ask quantities) with both sides non-empty, for a product
    that has a position limit, [Status.__init__] returns a snapshot: the
    VWAP division cannot fail. *)
Theorem init_well_formed_book (product : string) (state : TradingState.t)
    (od : OrderDepth) :
  TradingState.order_depths state !! product = Some od ->
  is_Some (Status.POSITION_LIMITS !! product) ->
  sell_orders od <> ∅ -> buy_orders od <> ∅ ->
  (forall p q, sell_orders od !! p = Some q -> q < 0) ->
  (forall p q, buy_orders od !! p = Some q -> 0 < q) ->
  exists self, Status.init product state = Ok self.
Proof.
  intros Hod Hlim Hs Hb Hneg Hpos.
  apply (init_Ok_intro product state od); try done.
  - assert (volume (sell_orders od) < 0); [|lia].
    apply sum_negative; [by apply quantities_nonempty|].
    by apply quantities_Forall.
  - assert (0 < volume (buy_orders od)); [|lia].
    apply sum_positive; [by apply quantities_nonempty|].
    by apply quantities_Forall.
Qed.

Lemma init_well_formed_book_witness :
  exists self, Status.init "PEARLS" (state_example 0 ∅) = Ok self.
Proof.
  apply (init_well_formed_book "PEARLS" (state_example 0 ∅) book_example).
  - reflexivity.
  - exists 20. reflexivity.
  - intros H. apply (f_equal (fun m => m !! 10)) in H. vm_compute in H.
    discriminate H.
  - intros H. apply (f_equal (fun m => m !! 8)) in H. vm_compute in H.
    discriminate H.
  - intros p q Hp. simpl in Hp.
    apply lookup_insert_Some in Hp as [[_ <-]|[_ Hp]]; [lia|].
    apply lookup_singleton_Some in Hp as [_ <-]. lia.
  - intros p q Hp. simpl in Hp.
    apply lookup_insert_Some in Hp as [[_ <-]|[_ Hp]]; [lia|].
    apply lookup_singleton_Some in Hp as [_ <-]. lia.
Defined.

(** ** The quote engine on a constructed snapshot *)

Lemma constructed_orders (product : string) (state : TradingState.t)
    (self : Status.t) (trend sma : Q) :
  constructed product state self ->
  exists orders,
    Strategy.market_making self trend sma = Ok orders /\
    (length orders <= 2)%nat /\
    forall order, order ∈ orders -> symbol order = product.
Proof.
  intros C. pose proof (c_product _ _ _ C) as Hproduct.
  destruct (constructed_touch _ _ _ C) as [[aq Haq] [bq Hbq]].
  destruct (Strategy.stop_loss self) eqn:Hstop.
  - rewrite (stop_loss_order self trend sma aq bq Hstop Haq Hbq).
    eexists. split; [reflexivity|]. split; [simpl; lia|].
    intros order Hin. apply list_elem_of_singleton in Hin as ->.
    by destruct (decide (0 < Status.position self)).
  - rewrite (two_sided_orders self trend sma Hstop). cbn zeta.
    eexists. split; [reflexivity|].
    destruct (decide (Status.best_ask self < _)).
    { split; [simpl; lia|]. intros order Hin. by apply elem_of_nil in Hin. }
    destruct (decide (_ < Status.best_bid self)).
    { split; [simpl; lia|]. intros order Hin. by apply elem_of_nil in Hin. }
    split; [simpl; lia|]. intros order Hin.
    apply elem_of_cons in Hin as [->|Hin]; [done|].
    by apply list_elem_of_singleton in Hin as ->.
Qed.



(** X10.  The candidate prices are never inverted: the bid price is
    strictly below the ask price for every reservation price and every
    spread, negative spreads included. *)
Theorem quote_prices_ordered (price spread : Q) :
  (Strategy.quote_prices price spread).1
  < (Strategy.quote_prices price spread).2.
Proof.
  unfold Strategy.quote_prices. cbn [fst snd].
  pose proof (Qceiling_lt (price - spread / 2)) as Hceil.
  pose proof (Qfloor_le (price + spread / 2)) as Hfloor.
  rewrite inject_Z_pred in Hceil. halves.
  destruct (Qle_bool (inject_Z (Qfloor _)) price) eqn:Ha; [lia|].
  apply Qle_bool_false in Ha.
  destruct (Qle_bool price _) eqn:Hb.
  - rewrite Zlt_Qlt, inject_Z_pred. lra.
  - apply Qle_bool_false in Hb. rewrite Zlt_Qlt. lra.
Qed.



(** ** Counting the orders *)

Lemma count_fold (orders : list Order) (bid ask : Z) :
  foldl (fun '(bid_order_count, ask_order_count) order =>
           if decide (0 < quantity order)
           then (bid_order_count + quantity order, ask_order_count)
           else if decide (quantity order < 0)
           then (bid_order_count, ask_order_count + quantity order)
           else (bid_order_count, ask_order_count))
        (bid, ask) orders
  = (bid + foldr Z.add 0 ((fun order => Z.max (quantity order) 0) <$> orders),
     ask + foldr Z.add 0 ((fun order => Z.min (quantity order) 0) <$> orders)).
Proof.
  revert bid ask. induction orders as [|order orders IH]; intros bid ask.
  - simpl. f_equal; lia.
  - rewrite !fmap_cons. cbn [foldl foldr].
    generalize dependent
      (foldr Z.add 0 ((fun order => Z.max (quantity order) 0) <$> orders)).
    generalize dependent
      (foldr Z.add 0 ((fun order => Z.min (quantity order) 0) <$> orders)).
    intros ask_rest bid_rest IH.
    destruct (decide (0 < quantity order)).
    + rewrite IH. f_equal; lia.
    + destruct (decide (quantity order < 0)); rewrite IH; f_equal; lia.
Qed.

Lemma position_after_sum (orders : list Order) (position : Z) :
  position_after position orders
  = position + foldr Z.add 0 (quantity <$> orders).
Proof.
  unfold position_after. revert position.
  induction orders as [|order orders IH]; intros position; [simpl; lia|].
  rewrite fmap_cons. cbn [foldl foldr]. rewrite IH. lia.
Qed.

(** X12.  [_count_order] returns the summed size of the buy orders
    (positive quantities) and the summed size of the sell orders
    (negative quantities): the first is never negative, the second never
    positive, and together they are the net quantity of the list. *)
Theorem count_order_sums (orders : list Order) :
  (Trader._count_order orders).1
  = foldr Z.add 0 ((fun order => Z.max (quantity order) 0) <$> orders) /\
  (Trader._count_order orders).2
  = foldr Z.add 0 ((fun order => Z.min (quantity order) 0) <$> orders) /\
  0 <= (Trader._count_order orders).1 /\
  (Trader._count_order orders).2 <= 0 /\
  (Trader._count_order orders).1 + (Trader._count_order orders).2
  = position_after 0 orders.
Proof.
  assert (Hcount :
    Trader._count_order orders
    = (foldr Z.add 0 ((fun order => Z.max (quantity order) 0) <$> orders),
       foldr Z.add 0 ((fun order => Z.min (quantity order) 0) <$> orders))).
  { unfold Trader._count_order. destruct orders as [|order orders]; [done|].
    rewrite count_fold. f_equal; lia. }
  rewrite Hcount, position_after_sum. cbn [fst snd].
  split; [done|]. split; [done|].
  clear Hcount. induction orders as [|order orders IH]; [simpl; lia|].
  rewrite !fmap_cons. cbn [foldr].
  destruct IH as (Hb & Ha & Hsum). lia.
Qed.

(** X13.  Outside the stop-loss branch the quote respects the rule of
    the exchange: the position plus the summed buy size stays at or below
    the limit, and the position plus the summed sell size stays at or
    above minus the limit. *)
Theorem two_sided_counts_within_limit (self : Status.t) (trend sma : Q) :
  Strategy.stop_loss self = false ->
  exists orders,
    Strategy.market_making self trend sma = Ok orders /\
    Status.position self + (Trader._count_order orders).1
    <= Status.limit self /\
    - Status.limit self
    <= Status.position self + (Trader._count_order orders).2.
Proof.
  intros Hstop. pose proof (no_stop_loss_room self Hstop) as Hroom.
  rewrite (two_sided_orders self trend sma Hstop). cbn zeta.
  destruct (quote_sizes_room (Status.limit self) (Status.position self)
              (1 # 2) (Strategy.quantity_shift self sma 2) Hroom)
    as [Hbid Hask].
  eexists. split; [reflexivity|].
  destruct (decide (Status.best_ask self < _)); [simpl; lia|].
  destruct (decide (_ < Status.best_bid self)); [simpl; lia|].
  unfold Trader._count_order. rewrite count_fold. simpl. lia.
Qed.

Lemma two_sided_counts_within_limit_witness :
  exists orders,
    Strategy.market_making status_short_10 (1 # 5) 0 = Ok orders /\
    Status.position status_short_10 + (Trader._count_order orders).1
    <= Status.limit status_short_10 /\
    - Status.limit status_short_10
    <= Status.position status_short_10 + (Trader._count_order orders).2.
Proof.
  apply (two_sided_counts_within_limit status_short_10 (1 # 5) 0).
  reflexivity.
Defined.

(** ** Stop-loss at any position past the threshold *)



(** X15.  A larger size shift never lowers either size: the bid
    quantity does not shrink and the ask quantity does not grow in
    magnitude. *)
Theorem quote_sizes_shift_monotone (limit position : Z) (skew : Q)
    (shift1 shift2 : Z) :
  shift1 <= shift2 ->
  (Strategy.quote_sizes limit position skew shift1).1
  <= (Strategy.quote_sizes limit position skew shift2).1 /\
  (Strategy.quote_sizes limit position skew shift1).2
  <= (Strategy.quote_sizes limit position skew shift2).2.
Proof.
  intros Hshift. unfold Strategy.quote_sizes. cbn [fst snd].
  generalize (Qfloor (skew * inject_Z (Z.max position 0)))
             (Qceiling (skew * inject_Z (Z.min position 0))).
  intros f c. split; lia.
Qed.

Lemma quote_sizes_shift_monotone_witness :
  (Strategy.quote_sizes 20 5 (1 # 2) (-3)).1
  <= (Strategy.quote_sizes 20 5 (1 # 2) 4).1 /\
  (Strategy.quote_sizes 20 5 (1 # 2) (-3)).2
  <= (Strategy.quote_sizes 20 5 (1 # 2) 4).2.
Proof. apply (quote_sizes_shift_monotone 20 5 (1 # 2) (-3) 4). lia. Defined.

(** ** One call of [Trader.run] *)

(** X16.  A call of [run] that returns has built the snapshot of
    ['PEARLS'], returns a result with the single key ['PEARLS'] holding
    at most two orders, and leaves [Trader._data] as it was except for
    the price window of ['PEARLS'], updated once: the trend of ['PEARLS']
    and the entries of the other products are untouched. *)
Theorem run_frame (state : TradingState.t)
    (_data _data' : gmap string Data.entry)
    (result : gmap string (list Order)) :
  Trader.run state _data = Ok (result, _data') ->
  exists self entry orders,
    Status.init "PEARLS" state = Ok self /\
    _data !! "PEARLS"%string = Some entry /\
    result = {[ "PEARLS"%string := orders ]} /\
    (length orders <= 2)%nat /\
    _data'
    = <["PEARLS"%string :=
          Data.mk (Data.trend entry)
            (Calculate.update_window (TradingState.timestamp state)
               (Status.mid_price self) (Data.price entry))]> _data /\
    (forall product, product <> "PEARLS"%string ->
       _data' !! product = _data !! product).
Proof.
  unfold Trader.run, Calculate.init, Strategy.init. intros E.
  apply bind_Ok_inv in E as (self & Einit & E).
  rewrite (init_again _ _ _ Einit) in E. simpl in E.
  apply init_constructed in Einit as C.
  apply bind_Ok_inv in E as (data1 & Eupd & E).
  apply bind_Ok_inv in E as (entry1 & _ & E).
  apply bind_Ok_inv in E as (orders & Eorders & E).
  injection E as <- <-.
  unfold Calculate.update_price in Eupd.
  apply bind_Ok_inv in Eupd as (entry & Eentry & Eupd).
  apply getitem_Ok in Eentry. injection Eupd as <-.
  rewrite (c_product _ _ _ C) in *. rewrite (c_timestamp _ _ _ C).
  destruct (constructed_orders _ _ self (Data.trend entry1)
              (Trader.sma_of (Data.price entry1)) C)
    as (orders' & Eorders' & Hlen & _).
  rewrite Eorders in Eorders'. injection Eorders' as <-.
  exists self, entry, orders. repeat (split; [done|]).
  intros product Hne. by rewrite lookup_insert_ne.
Qed.

Lemma run_frame_witness :
  exists self entry orders,
    Status.init "PEARLS" (state_example 0 ∅) = Ok self /\
    Trader._data !! "PEARLS"%string = Some entry /\
    ({[ "PEARLS"%string := [mkOrder "PEARLS" 8 20; mkOrder "PEARLS" 10 (-20)] ]}
       : gmap string (list Order))
    = {[ "PEARLS"%string := orders ]} /\
    (length orders <= 2)%nat /\
    <["PEARLS"%string := Data.mk (1 # 5) [18 # 2]]> Trader._data
    = <["PEARLS"%string :=
          Data.mk (Data.trend entry)
            (Calculate.update_window
               (TradingState.timestamp (state_example 0 ∅))
               (Status.mid_price self) (Data.price entry))]> Trader._data /\
    (forall product, product <> "PEARLS"%string ->
       <["PEARLS"%string := Data.mk (1 # 5) [18 # 2]]> Trader._data
         !! product
       = Trader._data !! product).
Proof.
  apply (run_frame (state_example 0 ∅) Trader._data).
  vm_compute. reflexivity.
Defined.


(** ** The price window after the warm-up *)

Lemma updates_late (product : string) (selfs : list Status.t) :
  forall (data : gmap string Data.entry) (entry : Data.entry),
    data !! product = Some entry ->
    Data.price entry <> [] ->
    (forall self, self ∈ selfs ->
       Status.product self = product /\ 400 < Status.timestamp self) ->
    exists data' entry',
      updates selfs data = Ok data' /\
      data' !! product = Some entry' /\
      Data.trend entry' = Data.trend entry /\
      Data.price entry'
      = drop (length selfs)
             (Data.price entry ++ (Status.mid_price <$> selfs)).
Proof.
  induction selfs as [|self selfs IH]; intros data entry Hd Hne Hall.
  - exists data, entry. simpl. by rewrite app_nil_r.
  - destruct (Hall self) as [Hp Ht]; [by left|].
    simpl. unfold Calculate.update_price, Calculate.update_window, getitem.
    rewrite Hp, Hd. simpl.
    destruct (decide (400 < Status.timestamp self)); [|done].
    destruct (Data.price entry) as [|x w] eqn:Hw; [done|]. simpl.
    edestruct (IH (<[product := Data.mk (Data.trend entry)
                       (w ++ [Status.mid_price self])]> data))
      as (data' & entry' & Hrun & Hd' & Htrend & Hprice).
    + apply lookup_insert_eq.
    + simpl. by destruct w.
    + intros self' Hin. apply Hall. by right.
    + exists data', entry'. split; [done|]. split; [done|]. split; [done|].
      rewrite Hprice. simpl. by rewrite <- app_assoc.
Qed.

(** X18.  Once every update comes at a timestamp above 400, a non-empty
    window keeps its length for good: each update drops the oldest entry
    and appends the new mid-price, so after [n] updates the window is the
    old window followed by the new mid-prices, minus its first [n]
    entries. *)
Theorem window_steady_state (product : string) (selfs : list Status.t)
    (data : gmap string Data.entry) (entry : Data.entry) :
  data !! product = Some entry ->
  Data.price entry <> [] ->
  (forall self, self ∈ selfs ->
     Status.product self = product /\ 400 < Status.timestamp self) ->
  exists data' entry',
    updates selfs data = Ok data' /\
    data' !! product = Some entry' /\
    Data.price entry'
    = drop (length selfs)
           (Data.price entry ++ (Status.mid_price <$> selfs)) /\
    length (Data.price entry') = length (Data.price entry).
Proof.
  intros Hd Hne Hall.
  destruct (updates_late product selfs data entry Hd Hne Hall)
    as (data' & entry' & Hrun & Hd' & _ & Hprice).
  exists data', entry'. split; [done|]. split; [done|]. split; [done|].
  rewrite Hprice, length_drop, length_app, length_fmap. lia.
Qed.

Lemma late_ticks : forall self, self ∈ late_ticks_example ->
  Status.product self = "PEARLS"%string /\ 400 < Status.timestamp self.
Proof.
  intros self Hin. unfold late_ticks_example in Hin.
  repeat (apply elem_of_cons in Hin as [->|Hin]; [split; [done|simpl; lia]|]).
  by apply elem_of_nil in Hin.
Defined.

Lemma window_steady_state_witness :
  exists data' entry',
    updates late_ticks_example
      (<["PEARLS"%string := Data.mk (1 # 5) [1; 2]%Q]> Trader._data)
    = Ok data' /\
    data' !! "PEARLS"%string = Some entry' /\
    Data.price entry'
    = drop (length late_ticks_example)
           ([1; 2]%Q ++ (Status.mid_price <$> late_ticks_example)) /\
    length (Data.price entry') = length [1; 2]%Q.
Proof.
  apply (window_steady_state "PEARLS" late_ticks_example
           (<["PEARLS"%string := Data.mk (1 # 5) [1; 2]%Q]> Trader._data)
           (Data.mk (1 # 5) [1; 2]%Q)).
  - reflexivity.
  - discriminate.
  - exact late_ticks.
Defined.

Lemma last_cons_default {A : Type} (l : list A) (x d : A) :
  List.last (x :: l) d = List.last l x.
Proof.
  revert x d. induction l as [|y l IH]; intros x d; [done|].
  change (List.last (x :: y :: l) d) with (List.last (y :: l) d).
  by rewrite (IH y d), (IH y x).
Qed.

(** X19.  A window that is still empty when the timestamps are already
    above 400 never fills: the deletion from the empty list is swallowed,
    the first mid-price is appended, and every later update replaces it,
    so after any number of updates the window holds the latest mid-price
    alone. *)
Theorem window_stuck_at_one (product : string) (self : Status.t)
    (selfs : list Status.t) (data : gmap string Data.entry)
    (entry : Data.entry) :
  data !! product = Some entry ->
  Data.price entry = [] ->
  (forall self', self' ∈ self :: selfs ->
     Status.product self' = product /\ 400 < Status.timestamp self') ->
  exists data' entry',
    updates (self :: selfs) data = Ok data' /\
    data' !! product = Some entry' /\
    Data.price entry' = [Status.mid_price (List.last selfs self)].
Proof.
  intros Hd Hw Hall.
  destruct (Hall self) as [Hp Ht]; [by left|].
  simpl. unfold Calculate.update_price, Calculate.update_window, getitem.
  rewrite Hp, Hd. simpl. rewrite Hw.
  destruct (decide (400 < Status.timestamp self)); [|done]. simpl.
  destruct (updates_late product selfs
              (<[product := Data.mk (Data.trend entry)
                   [Status.mid_price self]]> data)
              (Data.mk (Data.trend entry) [Status.mid_price self]))
    as (data' & entry' & Hrun & Hd' & _ & Hprice).
  - apply lookup_insert_eq.
  - discriminate.
  - intros self' Hin. apply Hall. by right.
  - exists data', entry'. split; [done|]. split; [done|].
    rewrite Hprice. clear.
    revert self. induction selfs as [|self' selfs IH]; intros self; [done|].
    rewrite last_cons_default, <- (IH self'). reflexivity.
Qed.

Lemma window_stuck_at_one_witness :
  exists data' entry',
    updates (status_tick 5 8 :: [status_tick 7 9; status_tick 12 7])
      Trader._data = Ok data' /\
    data' !! "PEARLS"%string = Some entry' /\
    Data.price entry'
    = [Status.mid_price
         (List.last [status_tick 7 9; status_tick 12 7] (status_tick 5 8))].
Proof.
  apply (window_stuck_at_one "PEARLS" (status_tick 5 8)
           [status_tick 7 9; status_tick 12 7] Trader._data
           (Data.mk (1 # 5) [])).
  - reflexivity.
  - reflexivity.
  - exact late_ticks.
Defined.

(** ** The direction of the moving-average shifts *)

Lemma py_round_floor (x : Q) :
  py_round x = Qfloor x \/ py_round x = Qfloor x + 1.
Proof.
  unfold py_round. destruct (_ ?= _)%Q; [|auto..].
  destruct (Z.even (Qfloor x)); auto.
Qed.

Lemma py_round_nonpos (x : Q) : (x < 0)%Q -> py_round x <= 0.
Proof.
  intros Hx. assert (Qfloor x < 0).
  { rewrite Zlt_Qlt. change (inject_Z 0) with 0%Q.
    pose proof (Qfloor_le x). lra. }
  destruct (py_round_floor x); lia.
Qed.

Lemma py_round_nonneg (x : Q) : (0 < x)%Q -> 0 <= py_round x.
Proof.
  intros Hx. assert (0 <= Qfloor x).
  { change 0 with (Qfloor 0). apply Qfloor_resp_le. lra. }
  destruct (py_round_floor x); lia.
Qed.

(** X20.  From timestamp 400 on the shifts lean against the deviation
    of the mid-price from the moving average: a mid-price above the
    average never raises the reservation price above [mid_vwap] and gives
    a size shift that is not positive; a mid-price below the average
    never lowers the reservation price below [mid_vwap] and gives a size
    shift that is not negative. *)
Theorem shifts_lean_against_deviation (self : Status.t) (sma : Q) :
  400 <= Status.timestamp self ->
  ((sma < Status.mid_price self)%Q ->
   (Strategy.mm_price self sma (3 # 4) <= Status.mid_vwap self)%Q /\
   Strategy.quantity_shift self sma 2 <= 0) /\
  ((Status.mid_price self < sma)%Q ->
   (Status.mid_vwap self <= Strategy.mm_price self sma (3 # 4))%Q /\
   0 <= Strategy.quantity_shift self sma 2).
Proof.
  intros Hlate. unfold Strategy.mm_price, Strategy.quantity_shift.
  destruct (decide (Status.timestamp self < 400)); [lia|].
  split; intros Hdev.
  - split; [lra|]. apply py_round_nonpos. lra.
  - split; [lra|]. apply py_round_nonneg. lra.
Qed.

Lemma shifts_lean_against_deviation_witness :
  ((8 < Status.mid_price (status_tick 5 8))%Q ->
   (Strategy.mm_price (status_tick 5 8) 8 (3 # 4)
    <= Status.mid_vwap (status_tick 5 8))%Q /\
   Strategy.quantity_shift (status_tick 5 8) 8 2 <= 0) /\
  ((Status.mid_price (status_tick 5 8) < 8)%Q ->
   (Status.mid_vwap (status_tick 5 8)
    <= Strategy.mm_price (status_tick 5 8) 8 (3 # 4))%Q /\
   0 <= Strategy.quantity_shift (status_tick 5 8) 8 2).
Proof.
  apply (shifts_lean_against_deviation (status_tick 5 8) 8). simpl. lia.
Defined.
